(** * 1000genome-mpi: the individuals worker and merger

    A shallow embedding of [bin/individuals_mpi_proper.py] and of its two
    siblings [bin/individuals_mpi_fixed.py] and [bin/individuals_mpi_debug.py].

    - Python [str] is [string] (the bytes of the text; every separator the
      scripts use is ASCII); [list] is [list]; the [chrp_data] dictionary is
      a [gmap nat]; the integers read from the command line are [Z].
    - Python [float] is an IEEE 754 binary64 value, here a primitive [float];
      the comparisons with [0.5] are the primitive ones.  The two interpreter
      builtins [float(...)] and [str(...)] are not code of the repository:
      they are the two methods of the class [PyFloat].
    - A [continue] statement or a caught exception inside the per-line loop
      is a [Skip] carrying the place it came from.
    - The file system is a map from paths to the lines [readlines()] gives;
      the MPI communicator is a map from (source, destination, tag) to the
      queue of messages in flight. *)

From Stdlib Require Import ZArith Strings.String Strings.Ascii PrimFloat FloatOps Uint63 DecimalString.
From Stdlib Require FloatAxioms.
From stdpp Require Import gmap list strings.


(** ** Strings *)

Definition TAB : ascii := "009"%char.
Definition NEWLINE : ascii := "010"%char.

(** [s.split(sep)] for a one-character separator: never empty, cuts at
    every occurrence of [sep], keeps empty pieces. *)
Fixpoint split (sep : ascii) (s : string) : list string :=
  match s with
  | EmptyString => [""]
  | String ch rest =>
      if Ascii.eqb ch sep then "" :: split sep rest
      else match split sep rest with
           | [] => [String ch ""]
           | piece :: pieces => String ch piece :: pieces
           end
  end.

(** [s.startswith(p)] *)
Fixpoint startswith (s p : string) : bool :=
  match p, s with
  | EmptyString, _ => true
  | String _ _, EmptyString => false
  | String a p', String b s' => Ascii.eqb a b && startswith s' p'
  end.

(** [ch in s] for a one-character [ch] *)
Fixpoint contains (ch : ascii) (s : string) : bool :=
  match s with
  | EmptyString => false
  | String a s' => Ascii.eqb a ch || contains ch s'
  end.

(** [s.rstrip('\n')]: every trailing newline goes. *)
Fixpoint rstrip_newline (s : string) : string :=
  match s with
  | EmptyString => ""
  | String ch rest =>
      match rstrip_newline rest with
      | EmptyString => if Ascii.eqb ch NEWLINE then "" else String ch ""
      | kept => String ch kept
      end
  end.

(** [re.compile('(?!#)').match(line)]: an empty match at position 0 unless
    the line starts with [#]. *)
Definition regex_match (line : string) : bool :=
  match line with
  | String "#" _ => false
  | _ => true
  end.

(** The text of [s] before its first [sep], all of [s] when it has none. *)
Fixpoint before (sep : ascii) (s : string) : string :=
  match s with
  | EmptyString => ""
  | String ch rest => if Ascii.eqb ch sep then "" else String ch (before sep rest)
  end.

(** ** Floats *)

(** The two builtins the scripts call on floats.  [float_of_string s] is
    [float(s)], with [None] for [ValueError]; [float_str x] is [str(x)]. *)
Class PyFloat := {
  float_of_string : string -> option float;
  float_str : float -> string
}.

(** ** Genotype classification (proper 176-186, fixed 178-194, debug 192-199) *)

Definition classify (first : string) (af_value : float) : bool :=
  match split "|" first with
  | [] => false
  | allele0 :: _ =>
      if (0.5 <=? af_value)%float && String.eqb allele0 "0" then true
      else if (af_value <? 0.5)%float && String.eqb allele0 "1" then true
      else false
  end.

(** The first ['|']-separated token of a genotype. *)
Definition first_allele (g : string) : string :=
  match split "|" g with
  | [] => ""
  | allele0 :: _ => allele0
  end.


(** ** Skipped lines *)

(** Why the per-line loop body moved on to the next line: one of its
    [continue] statements, or an exception caught by one of its two
    handlers. *)
Inductive skip_reason :=
  | FewerFieldsThanColumn   (* len(fields) <= col *)
  | FewerThanEightFields    (* len(fields) < 8 *)
  | NoAF                    (* no AF= part and no usable ninth part *)
  | ValueError              (* float() refused the text *)
  | IndexError.             (* a list index out of range *)

Inductive result (A : Type) :=
  | Ok (a : A)
  | Skip (why : skip_reason).
Arguments Ok {A} a.
Arguments Skip {A} why.

#[export] Instance result_ret : MRet result := fun _ a => Ok a.
#[export] Instance result_bind : MBind result := fun _ _ k r =>
  match r with
  | Ok a => k a
  | Skip why => Skip why
  end.

(** [l[i]] for a non-negative [i] *)
Definition index {A} (l : list A) (i : nat) : result A :=
  match l !! i with
  | Some x => Ok x
  | None => Skip IndexError
  end.

(** The three scripts.  [individuals_mpi_fixed.py] has the worker of
    [individuals_mpi_proper.py] word for word (its prints apart);
    [individuals_mpi_debug.py] slices the input and reads the fallback
    annotation differently. *)
Inductive script := proper | fixed | debug.

(** ** Allele frequency from the INFO annotation (proper 150-171) *)

(** The [for part in info_field.split(';')] loop with its [break]: the text
    [af_value] holds afterwards, [None] when no part starts with [AF=]. *)
Fixpoint find_af (parts : list string) : result (option string) :=
  match parts with
  | [] => Ok None
  | part :: rest =>
      if startswith part "AF=" then
        v ← index (split "=" part) 1; Ok (Some v)
      else find_af rest
  end.

(** The [if af_value is None:] branch.  proper and fixed (159-165): the
    ninth part is used only when it holds an [=]; debug (176-181): a ninth
    part without [=] is used as it is. *)
Definition fallback_af (s : script) (parts : list string) : result string :=
  match s with
  | proper | fixed =>
      match parts !! 8%nat with
      | Some p8 => if contains "=" p8 then index (split "=" p8) 1 else Skip NoAF
      | None => Skip NoAF
      end
  | debug =>
      match parts !! 8%nat with
      | Some p8 => if contains "=" p8 then index (split "=" p8) 1 else Ok p8
      | None => Skip NoAF
      end
  end.

(** The text of [af_value] just before the comma test. *)
Definition af_text (s : script) (info_field : string) : result string :=
  let parts := split ";" info_field in
  found ← find_af parts;
  match found with
  | Some v => Ok v
  | None => fallback_af s parts
  end.

Section Worker.
Context `{PyFloat}.

(** [float(text)] inside the [try] whose handler catches [ValueError]. *)
Definition to_float (text : string) : result float :=
  match float_of_string text with
  | Some x => Ok x
  | None => Skip ValueError
  end.

(** Lines 167-171: a comma-separated value gives its first piece. *)
Definition af_number (text : string) : result float :=
  if contains "," text then
    piece ← index (split "," text) 0; to_float piece
  else to_float text.

Definition parse_af (s : script) (info_field : string) : result float :=
  text ← af_text s info_field; af_number text.

(** ** One data line (proper 136-174) *)

(** What the loop body holds once [second[4] = str(af_value)] has run:
    [second], [first] and [af_value]. *)
Record parsed_line := {
  second : list string;
  first : string;
  af_value : float
}.

Definition parse_line (s : script) (col : nat) (line : string) : result parsed_line :=
  let fields := split TAB line in
  if (length fields <=? col)%nat then Skip FewerFieldsThanColumn else
  first ← index fields col;
  if (length fields <? 8)%nat then Skip FewerThanEightFields else
  second ← mapM (index fields) [1; 2; 3; 4; 7]%nat;
  info_field ← index second 4;
  af_value ← parse_af s info_field;
  Ok {| second := <[4%nat := float_str af_value]> second;
        first := first;
        af_value := af_value |}.

(** ** The working set (proper 73-74 and 95-104, debug 103-108) *)

(** CPython's adjustment of one slice bound for a list of [len] items. *)
Definition adjust_index (len i : Z) : Z :=
  (if i <? 0 then Z.max 0 (i + len) else Z.min i len)%Z.

(** [l[start:stop]] *)
Definition slice {A} (l : list A) (start stop : Z) : list A :=
  let len := Z.of_nat (length l) in
  let lo := adjust_index len start in
  let hi := adjust_index len stop in
  take (Z.to_nat (hi - lo)%Z) (drop (Z.to_nat lo) l).

Definition select_data (s : script) (rawdata : list string) (counter ending : Z) : list string :=
  let selected :=
    match s with
    | proper | fixed =>
        let start_idx := Z.max 0 (counter - 1)%Z in
        let end_idx := Z.min ending (Z.of_nat (length rawdata)) in
        slice rawdata start_idx end_idx
    | debug => slice rawdata (counter - 1)%Z ending
    end in
  map rstrip_newline (List.filter regex_match selected).

(** The lines of a file whose 1-based position lies in [lo, hi], in file
    order; [n] is the position of the head of [lines]. *)
Fixpoint lines_in_range (lines : list string) (n lo hi : Z) : list string :=
  match lines with
  | [] => []
  | line :: rest =>
      (if (lo <=? n)%Z && (n <=? hi)%Z then [line] else [])
      ++ lines_in_range rest (n + 1)%Z lo hi
  end.

(** ** The loop nest (proper 109-195) *)

Record contribution := {
  filename_arr : list string;
  count_arr : list nat;
  chrp_data : gmap nat (list (list string))
}.

Definition start_data : nat := 9.

(** The body of [for line in data]: the state is [chrp_data] and [count].
    A missing key [i] would raise [KeyError] at [chrp_data[i]], which the
    outer [except Exception] turns into a skipped line. *)
Definition process_line (s : script) (i col : nat)
    (st : gmap nat (list (list string)) * nat) (line : string)
    : gmap nat (list (list string)) * nat :=
  match parse_line s col line with
  | Skip _ => st
  | Ok p =>
      if classify (first p) (af_value p) then
        match st.1 !! i with
        | Some kept => (<[i := kept ++ [second p]]> st.1, S st.2)
        | None => st
        end
      else st
  end.

(** The body of [for i in range(0, end_data)], from the indices still to
    visit.  [columndata !! col = None] is the [col >= len(columndata)] test
    that ends the loop with [break]. *)
Fixpoint individuals_loop (s : script) (c : string) (data columndata : list string)
    (todo : list nat) (acc : contribution) : contribution :=
  match todo with
  | [] => acc
  | i :: rest =>
      let col := (i + start_data)%nat in
      match columndata !! col with
      | None => acc
      | Some name =>
          let filename_mpi := "chr" +:+ c +:+ "." +:+ name in
          let st := foldl (process_line s i col) (<[i := []]> (chrp_data acc), 0%nat) data in
          individuals_loop s c data columndata rest
            {| filename_arr := filename_arr acc ++ [filename_mpi];
               count_arr := count_arr acc ++ [st.2];
               chrp_data := st.1 |}
      end
  end.

(** What the loop body appends for one line: [second], when the line
    parses and the classification keeps it. *)
Definition kept_record (s : script) (col : nat) (line : string) : option (list string) :=
  match parse_line s col line with
  | Ok p => if classify (first p) (af_value p) then Some (second p) else None
  | Skip _ => None
  end.

(** The records of the lines of [data] kept for the column [col], in line
    order. *)
Definition kept_records (s : script) (col : nat) (data : list string) : list (list string) :=
  omap (kept_record s col) data.

(** The output identifier of the individual [i]. *)
Definition filename_of (c : string) (columndata : list string) (i : nat) : string :=
  "chr" +:+ c +:+ "." +:+ default "" (columndata !! (i + start_data)%nat).

(** [readfile]: the lines of the file, or [None] when it raises. *)
Definition readfile (fs : gmap string (list string)) (file : string) : option (list string) :=
  fs !! file.

(** Lines 73-195 of the worker: [None] is [return False], otherwise the
    three values about to be sent.  debug retries a relative [columfile]
    next to the input file when it is missing from the working directory;
    that retry is left out, so for debug this is the worker whenever
    [columfile] exists as given. *)
Definition worker_contribution (s : script) (fs : gmap string (list string))
    (inputfile columfile c : string) (counter stop total : Z) : option contribution :=
  let ending := Z.min stop total in
  rawdata ← readfile fs inputfile;
  columnlines ← readfile fs columfile;
  header ← columnlines !! 0%nat;
  let columndata := split TAB (rstrip_newline header) in
  let data := select_data s rawdata counter ending in
  let end_data := (Z.of_nat (length columndata) - Z.of_nat start_data)%Z in
  Some (individuals_loop s c data columndata (seq 0 (Z.to_nat end_data))
          {| filename_arr := []; count_arr := []; chrp_data := ∅ |}).

(** ** Transport *)

Inductive payload :=
  | Names (filename_arr : list string)
  | Counts (count_arr : list nat)
  | Records (chrp_data : gmap nat (list (list string))).

(** Messages in flight, per (source, destination, tag), oldest first.
    [send] is a [comm.send] that returns: a call that raises, or that waits
    for a receiver the message never gets, has no case here. *)
Definition send (source dest tag : nat) (obj : payload)
    (comm : gmap (nat * nat * nat) (list payload)) : gmap (nat * nat * nat) (list payload) :=
  <[(source, dest, tag) := default [] (comm !! (source, dest, tag)) ++ [obj]]> comm.

(** [comm.recv(source=..., tag=...)] at the process [dest], once the
    senders are done: the oldest message of the queue, or [None] when there
    is none, where the call would not return. *)
Definition recv (source dest tag : nat) (comm : gmap (nat * nat * nat) (list payload))
    : option (payload * gmap (nat * nat * nat) (list payload)) :=
  match comm !! (source, dest, tag) with
  | Some (obj :: queue) => Some (obj, <[(source, dest, tag) := queue]> comm)
  | _ => None
  end.

(** The three sends of the worker (proper 203-205). *)
Definition send_contribution (rank merge_rank : nat) (w : contribution)
    (comm : gmap (nat * nat * nat) (list payload)) : gmap (nat * nat * nat) (list payload) :=
  send rank merge_rank 13 (Records (chrp_data w))
    (send rank merge_rank 7 (Counts (count_arr w))
       (send rank merge_rank 12 (Names (filename_arr w)) comm)).

(** The worker of [individuals_mpi_proper.py]: its return value and the
    communicator after its three sends, each of which returns.  [false] is
    a file that cannot be read (76-90); the handler of a send that raises
    (207-209) has no case here. *)
Definition process_individuals_worker (fs : gmap string (list string))
    (inputfile columfile c : string) (counter stop total : Z) (rank size : nat)
    (comm : gmap (nat * nat * nat) (list payload)) : bool * gmap (nat * nat * nat) (list payload) :=
  match worker_contribution proper fs inputfile columfile c counter stop total with
  | None => (false, comm)
  | Some w =>
      let merge_rank := (size - 1)%nat in
      (true, send_contribution rank merge_rank w comm)
  end.

(** [processing] of [individuals_mpi_fixed.py], run by the process [rank]:
    the same worker, with [send_dest] for [merge_rank], its sends returning
    likewise (no process of that script receives; whether a send returns
    is then up to the buffers of the MPI library). *)
Definition processing (fs : gmap string (list string))
    (inputfile columfile c : string) (counter stop total : Z) (rank size : nat)
    (comm : gmap (nat * nat * nat) (list payload)) : bool * gmap (nat * nat * nat) (list payload) :=
  match worker_contribution fixed fs inputfile columfile c counter stop total with
  | None => (false, comm)
  | Some w =>
      let send_dest := (size - 1)%nat in
      (true, send_contribution rank send_dest w comm)
  end.

(** One worker per range: the process of rank [rank] works on the first
    range, the next rank on the next range, each with the arguments of its
    own command line.  The workers share the communicator only, where each
    appends to its own queues, so they are run one after the other. *)
Fixpoint run_workers (fs : gmap string (list string)) (inputfile columfile c : string)
    (total : Z) (size rank : nat) (ranges : list (Z * Z))
    (comm : gmap (nat * nat * nat) (list payload))
    : bool * gmap (nat * nat * nat) (list payload) :=
  match ranges with
  | [] => (true, comm)
  | (counter, stop) :: rest =>
      let done := process_individuals_worker fs inputfile columfile c counter stop total
                    rank size comm in
      let others := run_workers fs inputfile columfile c total size (S rank) rest done.2 in
      (done.1 && others.1, others.2)
  end.

End Worker.

(** Ranges [(counter, stop)] that follow one another from [start] to [last]
    without gap or overlap; a range may be empty ([stop = counter - 1]). *)
Inductive contiguous : Z -> list (Z * Z) -> Z -> Prop :=
  | contiguous_nil start : contiguous start [] (start - 1)
  | contiguous_cons start stop ranges last :
      (start - 1 <= stop)%Z ->
      contiguous (stop + 1) ranges last ->
      contiguous start ((start, stop) :: ranges) last.

(** ** The merger (proper 217-256) *)

(** The three accumulators of the merger. *)
Record merged := {
  all_filename_arr : list string;
  all_count_arr : list nat;
  all_chrp_data : list (gmap nat (list (list string)))
}.

(** The body of [for worker_rank in range(num_workers)], from the ranks
    still to visit.  [None] is a merger without a result: a receive that
    raises, where the handler returns [False], or one that never returns.
    Workers send a [Names] under tag 12, a [Counts] under tag 7 and a
    [Records] under tag 13; any other object under these tags is taken as
    a failure too. *)
Fixpoint merger_loop (rank : nat) (todo : list nat) (acc : merged)
    (comm : gmap (nat * nat * nat) (list payload))
    : option merged * gmap (nat * nat * nat) (list payload) :=
  match todo with
  | [] => (Some acc, comm)
  | worker_rank :: rest =>
      match recv worker_rank rank 12 comm with
      | Some (Names filename_arr, comm1) =>
          match recv worker_rank rank 7 comm1 with
          | Some (Counts count_arr, comm2) =>
              match recv worker_rank rank 13 comm2 with
              | Some (Records chrp_data, comm3) =>
                  merger_loop rank rest
                    {| all_filename_arr := all_filename_arr acc ++ filename_arr;
                       all_count_arr := all_count_arr acc ++ count_arr;
                       all_chrp_data := all_chrp_data acc ++ [chrp_data] |}
                    comm3
              | _ => (None, comm2)
              end
          | _ => (None, comm1)
          end
      | _ => (None, comm)
      end
  end.

(** [process_individuals_merger], run by the process [rank] of a group of
    [size]: the accumulators after the loop ([None] when the loop does not
    complete) and the communicator it leaves. *)
Definition process_individuals_merger (rank size : nat)
    (comm : gmap (nat * nat * nat) (list payload))
    : option merged * gmap (nat * nat * nat) (list payload) :=
  let num_workers := (size - 1)%nat in
  merger_loop rank (seq 0 num_workers)
    {| all_filename_arr := []; all_count_arr := []; all_chrp_data := [] |} comm.

(** The worker [source] has its contribution [w] waiting at the head of its
    three queues to [rank]. *)
Definition waiting (comm : gmap (nat * nat * nat) (list payload))
    (source rank : nat) (w : contribution) : Prop :=
  exists q12 q7 q13,
    comm !! (source, rank, 12%nat) = Some (Names (filename_arr w) :: q12)
    /\ comm !! (source, rank, 7%nat) = Some (Counts (count_arr w) :: q7)
    /\ comm !! (source, rank, 13%nat) = Some (Records (chrp_data w) :: q13).

(** The queues the merger at [rank] reads for the workers [first_rank] to
    [first_rank + workers - 1]. *)
Definition read_by_merger (rank first_rank workers : nat) (key : nat * nat * nat) : Prop :=
  (first_rank <= key.1.1 < first_rank + workers)%nat
  /\ key.1.2 = rank
  /\ (key.2 = 12 \/ key.2 = 7 \/ key.2 = 13)%nat.

#[export] Instance read_by_merger_dec rank first_rank workers key :
  Decision (read_by_merger rank first_rank workers key) :=
  ltac:(unfold read_by_merger; apply _).

(** No message waits in the queue [key]. *)
Definition silent (comm : gmap (nat * nat * nat) (list payload)) (key : nat * nat * nat) : Prop :=
  default [] (comm !! key) = [].

(** ** An executable instance of [PyFloat]

    For running the model on examples: [float()] on plain decimal literals
    (digits with at most one point, at most 15 digits), where the quotient
    of two exactly representable integers is the correctly rounded value the
    interpreter returns, and [ValueError] on every other text; [str()] as
    the shortest decimal that reads back, for the values these literals
    give, and the empty text elsewhere.  The interpreter's [float()] reads
    more (signs, exponents, blanks, [inf], [nan]); no text holding [=] is
    among them.  The theorems are proved for every instance; only examples
    run on this one. *)
Module Decimal.

Definition digit (ch : ascii) : option Z :=
  let n := Z.of_nat (nat_of_ascii ch) in
  if ((48 <=? n) && (n <=? 57))%Z then Some (n - 48)%Z else None.

(** The digits read so far as a number, how many followed the point, and how
    many there were. *)
Fixpoint read (s : string) (seen_point : bool) (n : Z) (k digits : nat)
    : option (Z * nat * nat) :=
  match s with
  | EmptyString => Some (n, k, digits)
  | String ch rest =>
      if Ascii.eqb ch "." then
        if seen_point then None else read rest true n k digits
      else
        match digit ch with
        | Some d => read rest seen_point (10 * n + d)%Z (if seen_point then S k else k) (S digits)
        | None => None
        end
  end.

Definition of_decimal (n : Z) (k : nat) : float :=
  (of_uint63 (Uint63.of_Z n) / of_uint63 (Uint63.of_Z (10 ^ Z.of_nat k)))%float.

Definition parse (s : string) : option float :=
  match read s false 0%Z 0%nat 0%nat with
  | Some (n, k, digits) =>
      if ((1 <=? digits) && (digits <=? 15))%nat then Some (of_decimal n k) else None
  | None => None
  end.

(** The integer nearest to [x * 10^k], for a finite [x > 0] or [+0.0]. *)
Definition scaled (x : float) (k : nat) : option Z :=
  match Prim2SF x with
  | SpecFloat.S754_zero false => Some 0%Z
  | SpecFloat.S754_finite false m e =>
      let num := (Z.pos m * 10 ^ Z.of_nat k)%Z in
      Some (if (0 <=? e)%Z then num * 2 ^ e else (2 * num + 2 ^ (- e)) / (2 * 2 ^ (- e)))%Z
  | _ => None
  end.

Fixpoint shortest (x : float) (fuel k : nat) : option (Z * nat) :=
  match fuel with
  | O => None
  | S fuel' =>
      match scaled x k with
      | Some n =>
          if (n <? 10 ^ 15)%Z && (of_decimal n k =? x)%float then Some (n, k)
          else shortest x fuel' (S k)
      | None => None
      end
  end.

Definition digits_of (n : Z) : string :=
  NilZero.string_of_uint (N.to_uint (Z.to_N n)).

Fixpoint zeros (n : nat) : string :=
  match n with
  | O => ""
  | S n' => String "0" (zeros n')
  end.

(** [n / 10^k] in positional notation, as [repr] writes values of at least
    [1e-4]: one digit at least on each side of the point. *)
Definition positional (n : Z) (k : nat) : string :=
  let ds := digits_of n in
  let ds := zeros (S k - String.length ds) +:+ ds in
  let int_len := (String.length ds - k)%nat in
  String.substring 0 int_len ds +:+ "." +:+
  (if (k =? 0)%nat then "0" else String.substring int_len k ds).

(** [n / 10^k] below [1e-4], as [repr] writes it: [d.ddde-XX]. *)
Definition scientific (n : Z) (k : nat) : string :=
  let ds := digits_of n in
  let e := (k + 1 - String.length ds)%nat in
  let es := digits_of (Z.of_nat e) in
  String.substring 0 1 ds +:+
  (if (String.length ds =? 1)%nat then "" else "." +:+ String.substring 1 (String.length ds - 1) ds)
  +:+ "e-" +:+ zeros (2 - String.length es) +:+ es.

Definition str (x : float) : string :=
  match shortest x 16 0 with
  | Some (n, k) =>
      if ((0 <? n) && (n * 10 ^ 4 <? 10 ^ Z.of_nat k))%Z then scientific n k
      else positional n k
  | None => ""
  end.

Definition decimal_literals : PyFloat :=
  {| float_of_string := parse; float_str := str |}.

End Decimal.

(** ** Sample data for the examples *)
Module Sample.

(** ['\t'.join(fields)] *)
Fixpoint tabbed (fields : list string) : string :=
  match fields with
  | [] => ""
  | [f] => f
  | f :: rest => f +:+ String TAB (tabbed rest)
  end.

Definition header : string :=
  tabbed ["#CHROM"; "POS"; "ID"; "REF"; "ALT"; "QUAL"; "FILTER"; "INFO"; "FORMAT";
          "HG00096"; "HG00097"].

Definition line1 : string :=
  tabbed ["1"; "100"; "rs1"; "A"; "G"; "."; "PASS"; "AC=1;AF=0.25,0.9;AN=2"; "GT";
          "0|1"; "1|0"].

Definition line2 : string :=
  tabbed ["1"; "200"; "rs2"; "C"; "T"; "."; "PASS"; "AF=0.75"; "GT";
          "0|1"; "1|0"].

Definition line3 : string :=
  tabbed ["1"; "300"; "rs3"; "G"; "T"; "."; "PASS"; "AF=0.5"; "GT";
          "0|0"; "1|1"].

(** Seven fields only. *)
Definition short_line : string :=
  tabbed ["1"; "400"; "rs4"; "G"; "T"; "."; "PASS"].

(** What [readlines()] gives for a file of these lines. *)
Definition readlines (lines : list string) : list string :=
  map (fun l => l +:+ String NEWLINE "") lines.

Definition rawdata : list string :=
  readlines ["##fileformat=VCFv4.1"; line1; line2; line3; short_line].

Definition files : gmap string (list string) :=
  {[ "ALL.chr1.250000.vcf" := rawdata;
     "columns.txt" := readlines [header];
     "two_columns.txt" := readlines [tabbed ["#CHROM"; "POS"]] ]}.

(** What the worker holds for the whole sample file, and for its lines 1
    to 2 and 3 to 5. *)
Definition whole : contribution :=
  {| filename_arr := ["chr1.HG00096"; "chr1.HG00097"];
     count_arr := [2; 1]%nat;
     chrp_data := {[ 0%nat := [["200"; "rs2"; "C"; "T"; "0.75"];
                               ["300"; "rs3"; "G"; "T"; "0.5"]];
                     1%nat := [["100"; "rs1"; "A"; "G"; "0.25"]] ]} |}.

Definition first_half : contribution :=
  {| filename_arr := ["chr1.HG00096"; "chr1.HG00097"];
     count_arr := [0; 1]%nat;
     chrp_data := {[ 0%nat := []; 1%nat := [["100"; "rs1"; "A"; "G"; "0.25"]] ]} |}.

Definition second_half : contribution :=
  {| filename_arr := ["chr1.HG00096"; "chr1.HG00097"];
     count_arr := [2; 0]%nat;
     chrp_data := {[ 0%nat := [["200"; "rs2"; "C"; "T"; "0.75"];
                               ["300"; "rs3"; "G"; "T"; "0.5"]];
                     1%nat := [] ]} |}.

End Sample.

(** ** Paths (the [os.path] calls of the scripts, POSIX flavour) *)

(** [s.endswith(p)] for a one-character [p] *)
Fixpoint endswith (s : string) (ch : ascii) : bool :=
  match s with
  | EmptyString => false
  | String a EmptyString => Ascii.eqb a ch
  | String _ rest => endswith rest ch
  end.

(** [s.rstrip(ch)]: every trailing [ch] goes. *)
Fixpoint rstrip (ch : ascii) (s : string) : string :=
  match s with
  | EmptyString => ""
  | String a rest =>
      match rstrip ch rest with
      | EmptyString => if Ascii.eqb a ch then "" else String a ""
      | kept => String a kept
      end
  end.

(** [p[:p.rfind('/') + 1]]: [p] up to its last slash, the slash included. *)
Fixpoint upto_last_slash (p : string) : string :=
  match p with
  | EmptyString => ""
  | String a rest =>
      match upto_last_slash rest with
      | EmptyString => if Ascii.eqb a "/" then "/" else ""
      | head => String a head
      end
  end.

(** [head == '/' * len(head)] *)
Fixpoint only_slashes (head : string) : bool :=
  match head with
  | EmptyString => true
  | String a rest => Ascii.eqb a "/" && only_slashes rest
  end.

(** [os.path.dirname(p)] *)
Definition dirname (p : string) : string :=
  let head := upto_last_slash p in
  if negb (String.eqb head "") && negb (only_slashes head) then rstrip "/" head else head.

(** [os.path.join(a, b)] *)
Definition path_join (a b : string) : string :=
  if startswith b "/" then b
  else if String.eqb a "" || endswith a "/" then a +:+ b
  else a +:+ "/" +:+ b.

(** [os.path.isabs(s)] *)
Definition isabs (s : string) : bool := startswith s "/".

(** [os.path.exists(path)] over the store, whose paths are the regular
    files the process can read.  A directory or an unreadable file of that
    name, for which the call is true as well, has no entry in the store. *)
Definition path_exists (fs : gmap string (list string)) (path : string) : bool :=
  bool_decide (is_Some (fs !! path)).

(** ** [find_columns_file] (proper 46-65, fixed 49-68) *)

(** The [for path in possible_paths] loop. *)
Fixpoint first_existing (fs : gmap string (list string)) (paths : list string) : option string :=
  match paths with
  | [] => None
  | path :: rest => if path_exists fs path then Some path else first_existing fs rest
  end.

(** [input_file] is [sys.argv[1]]; [None] is [FileNotFoundError]. *)
Definition find_columns_file (fs : gmap string (list string)) (input_file : string)
    : option string :=
  let possible_paths :=
    ["columns.txt"; "data/20130502/columns.txt";
     path_join (dirname input_file) "columns.txt"] in
  let possible_paths :=
    if isabs input_file then
      let data_dir := dirname input_file in
      possible_paths ++ [path_join data_dir "columns.txt"]
    else possible_paths in
  first_existing fs possible_paths.

(** ** Integers of the command line *)

(** [int_of_string s] is [int(s)], with [None] for [ValueError]. *)
Class PyInt := {
  int_of_string : string -> option Z
}.

Module Debug.
Section Processing.
Context `{PyFloat}.

(** The lines of the columns file as [individuals_mpi_debug.py] finds it
    (83-94): a relative [columfile] missing from the working directory is
    looked up next to the input file. *)
Definition columnlines (fs : gmap string (list string)) (inputfile columfile : string)
    : option (list string) :=
  if negb (isabs columfile) then
    if path_exists fs columfile then readfile fs columfile
    else
      let columfile_alt := path_join (dirname inputfile) columfile in
      readfile fs columfile_alt
  else readfile fs columfile.

(** Lines 69-210 of [processing]: [None] is [return False]. *)
Definition contribution_of (fs : gmap string (list string))
    (inputfile columfile c : string) (counter stop total : Z) : option contribution :=
  let ending := Z.min stop total in
  rawdata ← readfile fs inputfile;
  columnlines ← columnlines fs inputfile columfile;
  header ← columnlines !! 0%nat;
  let columndata := split TAB (rstrip_newline header) in
  let data := select_data debug rawdata counter ending in
  let end_data := (Z.of_nat (length columndata) - Z.of_nat start_data)%Z in
  Some (individuals_loop debug c data columndata (seq 0 (Z.to_nat end_data))
          {| filename_arr := []; count_arr := []; chrp_data := ∅ |}).

(** [processing] of [individuals_mpi_debug.py], run by the process [rank]. *)
Definition processing (fs : gmap string (list string))
    (inputfile columfile c : string) (counter stop total : Z) (rank size : nat)
    (comm : gmap (nat * nat * nat) (list payload)) : bool * gmap (nat * nat * nat) (list payload) :=
  match contribution_of fs inputfile columfile c counter stop total with
  | None => (false, comm)
  | Some w =>
      let send_dest := (size - 1)%nat in
      (true, send_contribution rank send_dest w comm)
  end.

End Processing.
End Debug.

(** ** The main programs of [individuals_mpi_proper.py] and
    [individuals_mpi_debug.py]

    [argv] is [sys.argv].  The result says whether the process reaches the
    last line of the script, and gives the communicator then; [false] is an
    exit with status 1 ([sys.exit(1)] or an exception nobody catches) or,
    for the merger, a message that never comes.  The Decaf calls stand in
    handlers that swallow every exception and nothing they return is used:
    they are left out. *)
Section Main.
Context `{PyFloat} `{PyInt}.

(** The worker called with the texts of the command line: [int(counter)],
    [int(stop)] and [int(total)] run first, outside every handler. *)
Definition call_worker
    (worker : Z -> Z -> Z -> bool * gmap (nat * nat * nat) (list payload))
    (counter stop total : string) (comm : gmap (nat * nat * nat) (list payload))
    : bool * gmap (nat * nat * nat) (list payload) :=
  match int_of_string counter, int_of_string stop, int_of_string total with
  | Some counter, Some stop, Some total => worker counter stop total
  | _, _, _ => (false, comm)
  end.

(** [individuals_mpi_proper.py] 259-329 *)
Definition main_proper (argv : list string) (fs : gmap string (list string))
    (rank size : nat) (comm : gmap (nat * nat * nat) (list payload))
    : bool * gmap (nat * nat * nat) (list payload) :=
  match argv with
  | [_; inputfile; c; counter; stop; total] =>
      match find_columns_file fs inputfile with
      | None => (false, comm)
      | Some columfile =>
          if (rank =? size - 1)%nat then
            let merge := process_individuals_merger rank size comm in
            (bool_decide (is_Some merge.1), merge.2)
          else
            call_worker
              (fun counter stop total =>
                 process_individuals_worker fs inputfile columfile c counter stop total
                   rank size comm)
              counter stop total comm
      end
  | _ => (false, comm)
  end.

(** [individuals_mpi_debug.py] 232-329: [total] is read from [sys.argv[5]],
    the text of [stop], with 250000 when [int()] refuses it; [processing]
    then reads [counter] and [stop], and finds [total] an integer already. *)
Definition main_debug (argv : list string) (fs : gmap string (list string))
    (rank size : nat) (comm : gmap (nat * nat * nat) (list payload))
    : bool * gmap (nat * nat * nat) (list payload) :=
  match argv with
  | [_; inputfile; columfile; c; counter; stop] =>
      let total := default 250000%Z (int_of_string stop) in
      match int_of_string counter, int_of_string stop with
      | Some counter, Some stop =>
          Debug.processing fs inputfile columfile c counter stop total rank size comm
      | _, _ => (false, comm)
      end
  | _ => (false, comm)
  end.

End Main.

(** An executable instance of [PyInt] for the examples: [int()] on plain
    decimal digits with an optional minus sign, [ValueError] elsewhere (the
    interpreter also takes blanks, a plus sign and underscores). *)
Module DecimalInt.

Fixpoint digits (s : string) (n : Z) : option Z :=
  match s with
  | EmptyString => Some n
  | String ch rest =>
      match Decimal.digit ch with
      | Some d => digits rest (10 * n + d)%Z
      | None => None
      end
  end.

Definition parse (s : string) : option Z :=
  match s with
  | EmptyString => None
  | String "-" EmptyString => None
  | String "-" rest => Z.opp <$> digits rest 0%Z
  | _ => digits s 0%Z
  end.

Definition decimal_integers : PyInt := {| int_of_string := parse |}.

End DecimalInt.

Lemma split_cons sep s : exists piece pieces, split sep s = piece :: pieces.
Proof.
  destruct s as [|ch rest]; simpl; [eauto|].
  destruct (Ascii.eqb ch sep); [eauto|].
  destruct (split sep rest); eauto.
Qed.

(** C1: [classify] keeps a record exactly when the frequency is at least
    0.5 and the first ['|'] token of the genotype is ["0"], or the frequency
    is below 0.5 and that token is ["1"]; every other case, an empty first
    token included, is discarded.  [classify] is a function of its two
    arguments: nothing else is read or written. *)
Theorem classify_spec (g : string) (f : float) :
  (classify g f = true <->
     ((0.5 <=? f)%float = true /\ first_allele g = "0") \/
     ((f <? 0.5)%float = true /\ first_allele g = "1"))
  /\ (first_allele g = "" -> classify g f = false).
Proof.
  split;
    unfold classify, first_allele;
    destruct (split_cons "|" g) as (a & rest & ->).
  - destruct (0.5 <=? f)%float, (f <? 0.5)%float; simpl;
      destruct (String.eqb_spec a "0"), (String.eqb_spec a "1"); subst;
      intuition congruence.
  - intros ->. simpl. rewrite !andb_false_r. reflexivity.
Qed.

(** ** Facts about the string operations *)

(** Case analysis on the test of the first [if] of the goal. *)
Ltac case_test :=
  match goal with
  | |- context [if ?b then _ else _] => destruct b eqn:?
  end.

Lemma split_before sep s : exists pieces, split sep s = before sep s :: pieces.
Proof.
  induction s as [|ch rest [pieces IH]]; simpl; [eauto|].
  destruct (Ascii.eqb ch sep); [eauto|]. rewrite IH. eauto.
Qed.

Lemma split_without sep s : contains sep s = false -> split sep s = [s].
Proof.
  induction s as [|ch rest IH]; simpl; [done|].
  destruct (Ascii.eqb ch sep); simpl; [done|].
  intros Hrest. by rewrite IH.
Qed.

Lemma before_without sep s : contains sep s = false -> before sep s = s.
Proof.
  intros Hs. destruct (split_before sep s) as [pieces Hp].
  rewrite split_without in Hp by done. congruence.
Qed.

Lemma split_append sep a b :
  contains sep a = false -> split sep (a +:+ String sep b) = a :: split sep b.
Proof.
  induction a as [|ch rest IH]; simpl.
  - intros _. by rewrite Ascii.eqb_refl.
  - destruct (Ascii.eqb ch sep); simpl; [done|].
    intros Hrest. by rewrite IH.
Qed.

Lemma startswith_append p s : startswith (p +:+ s) p = true.
Proof.
  induction p as [|ch rest IH]; simpl; [by destruct s|].
  by rewrite Ascii.eqb_refl.
Qed.

Lemma contains_append sep a b : contains sep (a +:+ String sep b) = true.
Proof.
  induction a as [|ch rest IH]; simpl.
  - by rewrite Ascii.eqb_refl.
  - rewrite IH. apply orb_true_r.
Qed.

(** ** Slices *)

Lemma slice_nonneg {A} (l : list A) lo hi :
  (0 <= lo)%Z -> (0 <= hi)%Z ->
  slice l lo hi = take (Z.to_nat (hi - lo)) (drop (Z.to_nat lo) l).
Proof.
  intros Hlo Hhi. unfold slice, adjust_index.
  destruct (Z.ltb_spec lo 0), (Z.ltb_spec hi 0); try lia.
  destruct (Z.le_gt_cases lo (Z.of_nat (length l))) as [Hin|Hout].
  - rewrite (Z.min_l lo) by done.
    destruct (Z.le_gt_cases hi (Z.of_nat (length l))).
    + by rewrite (Z.min_l hi).
    + rewrite (Z.min_r hi) by lia.
      rewrite !take_ge; [done| |]; rewrite length_drop; lia.
  - rewrite (Z.min_r lo) by lia.
    rewrite !(drop_ge l) by lia. by rewrite !take_nil.
Qed.

Lemma slice_clip {A} (l : list A) lo hi :
  (0 <= hi)%Z -> slice l lo (Z.min hi (Z.of_nat (length l))) = slice l lo hi.
Proof.
  intros Hhi. unfold slice. f_equal. f_equal. f_equal. unfold adjust_index.
  destruct (Z.ltb_spec hi 0), (Z.ltb_spec (Z.min hi (Z.of_nat (length l))) 0); lia.
Qed.

Lemma lines_in_range_from lines n lo hi :
  (lo <= n)%Z -> lines_in_range lines n lo hi = take (Z.to_nat (hi - n + 1)) lines.
Proof.
  revert n. induction lines as [|line rest IH]; intros n Hn; cbn.
  - by rewrite take_nil.
  - rewrite IH by lia.
    destruct (Z.leb_spec lo n); [|lia].
    destruct (Z.leb_spec n hi); cbn.
    + replace (Z.to_nat (hi - n + 1)) with (S (Z.to_nat (hi - (n + 1) + 1))) by lia.
      done.
    + replace (Z.to_nat (hi - n + 1)) with 0%nat by lia.
      by replace (Z.to_nat (hi - (n + 1) + 1)) with 0%nat by lia.
Qed.

Lemma lines_in_range_before lines n lo hi :
  (n <= lo)%Z ->
  lines_in_range lines n lo hi
  = take (Z.to_nat (hi - lo + 1)) (drop (Z.to_nat (lo - n)) lines).
Proof.
  revert n. induction lines as [|line rest IH]; intros n Hn.
  - by rewrite drop_nil, take_nil.
  - destruct (decide (n = lo)) as [->|Hne].
    + rewrite lines_in_range_from by lia. by rewrite Z.sub_diag.
    + cbn [lines_in_range]. rewrite IH by lia.
      destruct (Z.leb_spec lo n); [lia|]. cbn.
      by replace (Z.to_nat (lo - n)) with (S (Z.to_nat (lo - (n + 1)))) by lia.
Qed.

Lemma select_data_take_drop s rawdata counter ending :
  (1 <= counter)%Z -> (0 <= ending)%Z ->
  select_data s rawdata counter ending
  = map rstrip_newline (List.filter regex_match
      (take (Z.to_nat (ending - (counter - 1))) (drop (Z.to_nat (counter - 1)) rawdata))).
Proof.
  intros Hc He. unfold select_data. do 2 f_equal.
  destruct s; rewrite ?Z.max_r, ?slice_clip by lia; apply slice_nonneg; lia.
Qed.

Lemma select_data_lines s rawdata counter ending :
  (1 <= counter)%Z -> (0 <= ending)%Z ->
  select_data s rawdata counter ending
  = map rstrip_newline (List.filter regex_match (lines_in_range rawdata 1 counter ending)).
Proof.
  intros Hc He. rewrite select_data_take_drop, lines_in_range_before by lia.
  do 4 f_equal. lia.
Qed.

Section WorkerFacts.
Context `{PyFloat}.

(** ** The allele frequency *)

Lemma find_af_first pre value post :
  Forall (fun p => startswith p "AF=" = false) pre ->
  find_af (pre ++ ("AF=" +:+ value) :: post) = Ok (Some (before "=" value)).
Proof.
  induction 1 as [|p pre Hp _ IH].
  - cbn [app find_af]. rewrite startswith_append.
    change ("AF=" +:+ value) with ("AF" +:+ String "=" value).
    rewrite split_append by reflexivity.
    destruct (split_before "=" value) as [pieces ->]. reflexivity.
  - cbn [app find_af]. rewrite Hp. exact IH.
Qed.

Lemma find_af_none parts :
  Forall (fun p => startswith p "AF=" = false) parts -> find_af parts = Ok None.
Proof. induction 1 as [|p parts Hp _ IH]; simpl; [done|]. by rewrite Hp. Qed.

Lemma af_number_before text : af_number text = to_float (before "," text).
Proof.
  unfold af_number. destruct (contains "," text) eqn:Hc.
  - destruct (split_before "," text) as [pieces ->]. reflexivity.
  - by rewrite before_without.
Qed.

Lemma parse_line_Ok s col line p :
  parse_line s col line = Ok p ->
  exists f1 f2 f3 f4 f7,
    split TAB line !! 1%nat = Some f1 /\ split TAB line !! 2%nat = Some f2 /\
    split TAB line !! 3%nat = Some f3 /\ split TAB line !! 4%nat = Some f4 /\
    split TAB line !! 7%nat = Some f7 /\
    split TAB line !! col = Some (first p) /\
    parse_af s f7 = Ok (af_value p) /\
    second p = [f1; f2; f3; f4; float_str (af_value p)].
Proof.
  unfold parse_line. cbv zeta. set (fields := split TAB line).
  case_test; [congruence|].
  unfold index.
  destruct (fields !! col) as [g|]; cbn; [|congruence].
  case_test; [congruence|].
  destruct (fields !! 1%nat) as [f1|]; cbn; [|congruence].
  destruct (fields !! 2%nat) as [f2|]; cbn; [|congruence].
  destruct (fields !! 3%nat) as [f3|]; cbn; [|congruence].
  destruct (fields !! 4%nat) as [f4|]; cbn; [|congruence].
  destruct (fields !! 7%nat) as [f7|]; cbn; [|congruence].
  destruct (parse_af s f7) as [af|] eqn:Haf; cbn; [|congruence].
  intros [= <-]. cbn. by exists f1, f2, f3, f4, f7.
Qed.

Lemma parse_af_found s info pre value post :
  split ";" info = pre ++ ("AF=" +:+ value) :: post ->
  Forall (fun p => startswith p "AF=" = false) pre ->
  parse_af s info = to_float (before "," (before "=" value)).
Proof.
  intros Hinfo Hpre. unfold parse_af, af_text.
  rewrite Hinfo, find_af_first by done. cbn.
  apply af_number_before.
Qed.

(** C2 (amended): when the first [AF=<value>] component of the annotation
    is found, the frequency is [float()] of the part of [<value>] before its
    first [=] cut before its first comma, whatever the other components
    hold; for a [<value>] without [=] that is the text before its first
    comma (all of it when it has none); when [float()] refuses the text the
    line is skipped with [ValueError]. *)
Theorem parse_af_first_AF s info pre value post :
  split ";" info = pre ++ ("AF=" +:+ value) :: post ->
  Forall (fun p => startswith p "AF=" = false) pre ->
  parse_af s info = to_float (before "," (before "=" value))
  /\ (contains "=" value = false ->
        parse_af s info = to_float (before "," value))
  /\ (float_of_string (before "," (before "=" value)) = None ->
        parse_af s info = Skip ValueError
        /\ forall col line,
             split TAB line !! 7%nat = Some info ->
             exists why, parse_line s col line = Skip why).
Proof.
  intros Hinfo Hpre.
  pose proof (parse_af_found s info pre value post Hinfo Hpre) as Hparse.
  split; [done|split].
  - intros Hv. by rewrite Hparse, (before_without "=" value).
  - intros Hnone. assert (parse_af s info = Skip ValueError) as Hskip.
    { rewrite Hparse. unfold to_float. by rewrite Hnone. }
    split; [done|]. intros col line H7.
    destruct (parse_line s col line) as [p|why] eqn:Hline; [|eauto].
    apply parse_line_Ok in Hline as (f1 & f2 & f3 & f4 & f7 & _ & _ & _ & _ & H7' & _ & Haf & _).
    congruence.
Qed.

(** C5 (amended): when no component of the annotation starts with [AF=],
    the ninth [;]-separated component (index 8) decides.  A component
    [key=value] gives its value part (read up to a further [=], then cut at
    the first comma); an absent ninth component skips the line; a bare ninth
    component is used as the value by [individuals_mpi_debug.py] only, while
    [individuals_mpi_proper.py] and [individuals_mpi_fixed.py] skip the
    line. *)
Theorem parse_af_fallback s info :
  Forall (fun p => startswith p "AF=" = false) (split ";" info) ->
  (forall key value,
      split ";" info !! 8%nat = Some (key +:+ String "=" value) ->
      contains "=" key = false ->
      parse_af s info = af_number (before "=" value))
  /\ (forall p8,
        split ";" info !! 8%nat = Some p8 -> contains "=" p8 = false ->
        parse_af s info =
          match s with
          | debug => af_number p8
          | proper | fixed => Skip NoAF
          end)
  /\ (split ";" info !! 8%nat = None -> parse_af s info = Skip NoAF).
Proof.
  intros Hnone. unfold parse_af, af_text.
  rewrite (find_af_none _ Hnone). cbn.
  split; [|split].
  - intros key value H8 Hkey.
    assert (fallback_af s (split ";" info) = Ok (before "=" value)) as ->; [|done].
    unfold fallback_af. rewrite H8, contains_append, split_append by done.
    destruct (split_before "=" value) as [pieces ->]. by destruct s.
  - intros p8 H8 Hbare. unfold fallback_af. rewrite H8, Hbare. by destruct s.
  - intros H8. unfold fallback_af. rewrite H8. by destruct s.
Qed.

(** C7: a line the parser does not skip gives a [second] of exactly five
    elements: the fields 1, 2, 3 and 4 of the line in that order, then, in
    the place of field 7, [str()] of the frequency parsed from field 7. *)
Theorem parse_line_core s col line p :
  parse_line s col line = Ok p ->
  length (second p) = 5%nat
  /\ (forall k, (k < 4)%nat -> second p !! k = split TAB line !! S k)
  /\ exists info, split TAB line !! 7%nat = Some info
       /\ parse_af s info = Ok (af_value p)
       /\ second p !! 4%nat = Some (float_str (af_value p)).
Proof.
  intros (f1 & f2 & f3 & f4 & f7 & H1 & H2 & H3 & H4 & H7 & _ & Haf & ->)%parse_line_Ok.
  split; [done|split].
  - intros k Hk. destruct k as [|[|[|[|k]]]]; cbn; try done. lia.
  - by exists f7.
Qed.

(** C8: a line with too few fields for the individual's column, or with
    fewer than the eight fields the core needs, is skipped: the parser gives
    [Skip], and the loop body leaves the individual's records and count as
    they were. *)
Theorem short_line_skipped s i col st line :
  (length (split TAB line) <= col \/ length (split TAB line) < 8)%nat ->
  (exists why, parse_line s col line = Skip why)
  /\ process_line s i col st line = st.
Proof.
  intros Hshort.
  assert (exists why, parse_line s col line = Skip why) as [why Hskip].
  { unfold parse_line. cbv zeta.
    case_test; [eauto|].
    destruct (index (split TAB line) col); cbn; [|eauto].
    case_test; [eauto|].
    repeat match goal with
           | Hb : (_ <=? _)%nat = false |- _ => apply Nat.leb_gt in Hb
           | Hb : (_ <? _)%nat = false |- _ => apply Nat.ltb_ge in Hb
           end.
    lia. }
  split; [eauto|]. unfold process_line. by rewrite Hskip.
Qed.

(** ** The loop nest *)

Lemma process_line_kept s i col m count kept line :
  m !! i = Some kept ->
  process_line s i col (m, count) line
  = match kept_record s col line with
    | Some record => (<[i := kept ++ [record]]> m, S count)
    | None => (m, count)
    end.
Proof.
  intros Hi. unfold process_line, kept_record.
  destruct (parse_line s col line) as [p|]; [|done].
  destruct (classify (first p) (af_value p)); [|done].
  cbn. by rewrite Hi.
Qed.

Lemma foldl_process_line s i col data : forall m count kept,
  m !! i = Some kept ->
  foldl (process_line s i col) (m, count) data
  = (<[i := kept ++ kept_records s col data]> m,
     (count + length (kept_records s col data))%nat).
Proof.
  induction data as [|line data IH]; intros m count kept Hi; cbn.
  - rewrite app_nil_r, Nat.add_0_r. by rewrite insert_id.
  - rewrite (process_line_kept _ _ _ _ _ kept) by done.
    unfold kept_records. cbn [omap list_omap].
    fold (kept_records s col data).
    destruct (kept_record s col line) as [record|].
    + rewrite (IH _ _ (kept ++ [record])) by apply lookup_insert_eq.
      rewrite insert_insert_eq, <- app_assoc. cbn. f_equal. lia.
    + by apply IH.
Qed.

Lemma individuals_loop_spec s c data columndata k : forall j acc,
  (k = 0 \/ j + k + start_data <= length columndata)%nat ->
  let w := individuals_loop s c data columndata (seq j k) acc in
  filename_arr w = filename_arr acc ++ map (filename_of c columndata) (seq j k)
  /\ count_arr w
     = count_arr acc
       ++ map (fun i => length (kept_records s (i + start_data) data)) (seq j k)
  /\ forall i, chrp_data w !! i
       = if decide (j <= i < j + k)%nat
         then Some (kept_records s (i + start_data) data)
         else chrp_data acc !! i.
Proof.
  induction k as [|k IH]; intros j acc Hlen; cbn zeta.
  - cbn. rewrite !app_nil_r. repeat split. intros i.
    case_decide; [lia|done].
  - cbn [seq individuals_loop].
    destruct (lookup_lt_is_Some_2 columndata (j + start_data)) as [name Hname]; [lia|].
    rewrite Hname.
    rewrite (foldl_process_line _ _ _ _ _ _ []) by apply lookup_insert_eq.
    cbn [fst snd].
    destruct (IH (S j) {|
      filename_arr := filename_arr acc ++ ["chr" +:+ c +:+ "." +:+ name];
      count_arr := count_arr acc ++ [(0 + length (kept_records s (j + start_data) data))%nat];
      chrp_data := <[j := [] ++ kept_records s (j + start_data) data]>
                     (<[j := []]> (chrp_data acc)) |}) as (Hf & Hc & Hd); [lia|].
    rewrite Hf, Hc. cbn [filename_arr count_arr chrp_data map].
    rewrite <- !app_assoc. cbn [app].
    unfold filename_of at 2. rewrite Hname. cbn [default].
    repeat split. intros i. rewrite Hd. cbn [chrp_data].
    repeat case_decide; try lia.
    + done.
    + replace i with j by lia. by rewrite lookup_insert_eq.
    + rewrite !lookup_insert_ne by lia. done.
Qed.

(** The worker, with both files readable: its [data], its [columndata] and
    what the loop nest leaves. *)
Lemma worker_contribution_readable s fs inputfile columfile c counter stop total
    rawdata header more :
  fs !! inputfile = Some rawdata -> fs !! columfile = Some (header :: more) ->
  let columndata := split TAB (rstrip_newline header) in
  let data := select_data s rawdata counter (Z.min stop total) in
  let n := (length columndata - start_data)%nat in
  exists w, worker_contribution s fs inputfile columfile c counter stop total = Some w
    /\ filename_arr w = map (filename_of c columndata) (seq 0 n)
    /\ count_arr w = map (fun i => length (kept_records s (i + start_data) data)) (seq 0 n)
    /\ forall i, chrp_data w !! i
         = if decide (i < n)%nat then Some (kept_records s (i + start_data) data) else None.
Proof.
  intros Hin Hcol columndata data n.
  unfold worker_contribution, readfile. rewrite Hin, Hcol. cbn.
  fold columndata. fold data.
  replace (Z.to_nat (Z.of_nat (length columndata) - Z.of_nat start_data)) with n by lia.
  eexists. split; [done|].
  destruct (individuals_loop_spec s c data columndata n 0
              {| filename_arr := []; count_arr := []; chrp_data := ∅ |})
    as (Hf & Hc & Hd); [unfold n, start_data; lia|].
  split; [exact Hf|]. split; [exact Hc|].
  intros i. rewrite Hd. cbn. repeat case_decide; try lia; done.
Qed.

Lemma worker_contribution_inv s fs inputfile columfile c counter stop total w :
  worker_contribution s fs inputfile columfile c counter stop total = Some w ->
  exists rawdata header more,
    fs !! inputfile = Some rawdata /\ fs !! columfile = Some (header :: more).
Proof.
  unfold worker_contribution, readfile.
  destruct (fs !! inputfile) as [rawdata|]; [|done]. cbn.
  destruct (fs !! columfile) as [[|header more]|]; [done| |done].
  intros _. by exists rawdata, header, more.
Qed.

(** C4: for a 1-based inclusive range [counter, stop] capped by [total],
    the worker's [data] are the lines of the file at positions [counter] to
    [min(stop, total)], as far as the file has them, less those starting
    with [#], each without its line end.  Positions count every line of the
    file as read, comment lines included: the scripts slice first and drop
    the [#] lines afterwards.  No line is left out as a header: the header
    is read from the columns file, and a line of the input goes out for its
    [#] only.  A range that runs past the end of the file gives the lines up
    to the end, and with both files readable the worker goes on to its
    contribution, where every individual of the header has the records of
    these lines. *)
Theorem working_set s fs inputfile columfile c counter stop total rawdata header more :
  fs !! inputfile = Some rawdata -> fs !! columfile = Some (header :: more) ->
  (1 <= counter)%Z -> (0 <= stop)%Z -> (0 <= total)%Z ->
  let data := map rstrip_newline (List.filter regex_match
                (lines_in_range rawdata 1 counter (Z.min stop total))) in
  select_data s rawdata counter (Z.min stop total) = data
  /\ ((Z.of_nat (length rawdata) <= Z.min stop total)%Z ->
       data = map rstrip_newline (List.filter regex_match
                (drop (Z.to_nat (counter - 1)) rawdata)))
  /\ exists w,
       worker_contribution s fs inputfile columfile c counter stop total = Some w
       /\ forall i, (i < length (split TAB (rstrip_newline header)) - start_data)%nat ->
            chrp_data w !! i = Some (kept_records s (i + start_data) data).
Proof.
  intros Hin Hcol Hc Hs Ht data.
  assert (select_data s rawdata counter (Z.min stop total) = data) as Hdata
    by (apply select_data_lines; lia).
  split; [done|split].
  - intros Hpast. rewrite <- Hdata, select_data_take_drop by lia.
    rewrite take_ge; [done|]. rewrite length_drop. lia.
  - destruct (worker_contribution_readable s fs inputfile columfile c counter stop total
                rawdata header more Hin Hcol) as (w & Hw & _ & _ & Hd).
    exists w. split; [done|]. intros i Hi.
    by rewrite Hd, decide_True, Hdata.
Qed.

(** C10: the three payloads of a worker's contribution go together: with
    [n] the number of individuals of the header, the identifiers, the counts
    and the record mapping have [n] entries each, the mapping has exactly
    the keys below [n], and the count of every individual is the length of
    that individual's record list. *)
Theorem contribution_consistent s fs inputfile columfile c counter stop total w :
  worker_contribution s fs inputfile columfile c counter stop total = Some w ->
  exists header more n,
    fs !! columfile = Some (header :: more)
    /\ n = (length (split TAB (rstrip_newline header)) - start_data)%nat
    /\ length (filename_arr w) = n
    /\ length (count_arr w) = n
    /\ size (chrp_data w) = n
    /\ (forall i, is_Some (chrp_data w !! i) <-> (i < n)%nat)
    /\ (forall i, (i < n)%nat ->
          exists records,
            chrp_data w !! i = Some records
            /\ count_arr w !! i = Some (length records)
            /\ is_Some (filename_arr w !! i)).
Proof.
  intros Hw.
  destruct (worker_contribution_inv _ _ _ _ _ _ _ _ _ Hw)
    as (rawdata & header & more & Hin & Hcol).
  destruct (worker_contribution_readable s fs inputfile columfile c counter stop total
              rawdata header more Hin Hcol) as (w' & Hw' & Hf & Hc & Hd).
  assert (w' = w) as -> by congruence.
  set (n := (length (split TAB (rstrip_newline header)) - start_data)%nat) in *.
  exists header, more, n.
  assert (forall i, is_Some (chrp_data w !! i) <-> (i < n)%nat) as Hkeys.
  { intros i. rewrite Hd. case_decide.
    - split; [done|eauto].
    - split; [by intros [??]|lia]. }
  split; [done|]. split; [done|].
  split; [by rewrite Hf, length_map, length_seq|].
  split; [by rewrite Hc, length_map, length_seq|].
  split; [|split; [exact Hkeys|]].
  - rewrite <- size_dom.
    assert (dom (chrp_data w) = set_seq (C:=gset nat) 0 n) as ->.
    { apply set_eq. intros i. rewrite elem_of_dom, Hkeys, elem_of_set_seq. lia. }
    apply size_set_seq.
  - intros i Hi. eexists. split; [|split].
    + rewrite Hd. by rewrite decide_True.
    + rewrite Hc, list_lookup_fmap, lookup_seq_lt by done. done.
    + rewrite Hf. apply lookup_lt_is_Some. by rewrite length_map, length_seq.
Qed.

(** C6 (amended): a header of fewer than nine columns is no error.  With
    both files readable the worker finds no individual, completes with an
    empty contribution (no identifier, no count, an empty record mapping),
    sends it and returns [True]. *)
Theorem short_header_empty_contribution s fs inputfile columfile c counter stop total
    rawdata header more :
  fs !! inputfile = Some rawdata -> fs !! columfile = Some (header :: more) ->
  (length (split TAB (rstrip_newline header)) < 9)%nat ->
  worker_contribution s fs inputfile columfile c counter stop total
  = Some {| filename_arr := []; count_arr := []; chrp_data := ∅ |}
  /\ forall rank size comm,
       let sent := send rank (size - 1) 13 (Records ∅)
                     (send rank (size - 1) 7 (Counts [])
                        (send rank (size - 1) 12 (Names []) comm)) in
       process_individuals_worker fs inputfile columfile c counter stop total rank size comm
       = (true, sent)
       /\ processing fs inputfile columfile c counter stop total rank size comm
          = (true, sent).
Proof.
  intros Hin Hcol Hshort.
  assert (forall s', worker_contribution s' fs inputfile columfile c counter stop total
          = Some {| filename_arr := []; count_arr := []; chrp_data := ∅ |}) as Hempty.
  { intros s'. unfold worker_contribution, readfile. rewrite Hin, Hcol. cbn.
    replace (Z.to_nat _) with 0%nat by (unfold start_data; lia). done. }
  split; [apply Hempty|].
  intros rank size comm. unfold process_individuals_worker, processing.
  by rewrite !Hempty.
Qed.

End WorkerFacts.

(** ** The merger *)

Lemma recv_head source rank tag comm obj queue :
  comm !! (source, rank, tag) = Some (obj :: queue) ->
  recv source rank tag comm = Some (obj, <[(source, rank, tag) := queue]> comm).
Proof. intros Hq. unfold recv. by rewrite Hq. Qed.

Lemma merger_loop_collects rank ws : forall first_rank acc comm,
  (forall r w, ws !! r = Some w -> waiting comm (first_rank + r) rank w) ->
  exists comm',
    merger_loop rank (seq first_rank (length ws)) acc comm
    = (Some {| all_filename_arr := all_filename_arr acc ++ concat (map filename_arr ws);
               all_count_arr := all_count_arr acc ++ concat (map count_arr ws);
               all_chrp_data := all_chrp_data acc ++ map chrp_data ws |}, comm')
    /\ forall key, comm' !! key
         = if decide (read_by_merger rank first_rank (length ws) key)
           then tail <$> comm !! key else comm !! key.
Proof.
  induction ws as [|w ws IH]; intros first_rank acc comm Hwait.
  - exists comm. cbn. rewrite !app_nil_r. split; [by destruct acc|].
    intros key. case_decide as Hread; [|done].
    destruct Hread as (? & _). lia.
  - destruct (Hwait 0%nat w eq_refl) as (q12 & q7 & q13 & H12 & H7 & H13).
    rewrite Nat.add_0_r in H12, H7, H13.
    cbn [length seq merger_loop].
    rewrite (recv_head _ _ _ _ _ _ H12).
    rewrite (recv_head _ _ _ _ (Counts (count_arr w)) q7)
      by (by rewrite lookup_insert_ne).
    rewrite (recv_head _ _ _ _ (Records (chrp_data w)) q13)
      by (by rewrite !lookup_insert_ne).
    edestruct (IH (S first_rank)) as (comm' & -> & Hleft).
    { intros r w' Hr. destruct (Hwait (S r) w' Hr) as (p12 & p7 & p13 & ? & ? & ?).
      exists p12, p7, p13.
      rewrite !lookup_insert_ne by (intros [=]; lia).
      by replace (S first_rank + r)%nat with (first_rank + S r)%nat by lia. }
    exists comm'. cbn [all_filename_arr all_count_arr all_chrp_data map concat].
    rewrite <- !app_assoc. split; [done|].
    intros [[source dest] tag]. rewrite Hleft.
    unfold read_by_merger. cbn [fst snd].
    rewrite !lookup_insert.
    repeat case_decide; simplify_eq; try lia; try done;
      rewrite ?H12, ?H7, ?H13; try done; exfalso;
      match goal with
      | Hin : _ /\ _ /\ _, Hout : ~ _ |- _ =>
          destruct Hin as (? & -> & ?);
          destruct (decide (source = first_rank)) as [->|];
          [intuition congruence|apply Hout; intuition lia]
      | Hin : _ /\ _ /\ _ |- _ => intuition lia
      end.
Qed.

Lemma recv_silent source rank tag comm obj comm1 key :
  recv source rank tag comm = Some (obj, comm1) ->
  silent comm key -> key <> (source, rank, tag) /\ silent comm1 key.
Proof.
  unfold recv, silent. intros Hrecv Hkey.
  destruct (comm !! (source, rank, tag)) as [[|head queue]|] eqn:Hq; try done.
  injection Hrecv as <- <-.
  assert (key <> (source, rank, tag)) as Hne.
  { intros ->. by rewrite Hq in Hkey. }
  split; [done|]. by rewrite lookup_insert_ne.
Qed.

Lemma merger_loop_missing rank todo : forall acc comm r tag,
  r ∈ todo -> (tag = 12 \/ tag = 7 \/ tag = 13)%nat ->
  silent comm (r, rank, tag) ->
  (merger_loop rank todo acc comm).1 = None.
Proof.
  induction todo as [|worker_rank todo IH]; intros acc comm r tag Hr Htag Hsilent.
  - by apply elem_of_nil in Hr.
  - cbn [merger_loop].
    destruct (recv worker_rank rank 12 comm) as [[[names| |] comm1]|] eqn:H12; try done.
    destruct (recv_silent _ _ _ _ _ _ _ H12 Hsilent) as [Hne12 Hsilent1].
    destruct (recv worker_rank rank 7 comm1) as [[[|counts|] comm2]|] eqn:H7; try done.
    destruct (recv_silent _ _ _ _ _ _ _ H7 Hsilent1) as [Hne7 Hsilent2].
    destruct (recv worker_rank rank 13 comm2) as [[[| |records] comm3]|] eqn:H13; try done.
    destruct (recv_silent _ _ _ _ _ _ _ H13 Hsilent2) as [Hne13 Hsilent3].
    apply elem_of_cons in Hr as [-> | Hr].
    + destruct Htag as [-> | [-> | ->]]; done.
    + by apply (IH _ _ r tag).
Qed.

(** C9: with one worker per member of the group but the merger, when every
    worker's contribution waits in its three queues the merger takes exactly
    one message from each of them, in increasing rank order: its identifier
    list is the workers' identifier lists one after the other, its count
    list likewise, and its record mappings are the workers' mappings, one
    entry per worker, none merged; every other queue is left as it was.  A
    worker with nothing sent under one of the three tags leaves the merger
    without a result. *)
Theorem merger_collects rank size ws comm :
  size = S (length ws) ->
  (forall r w, ws !! r = Some w -> waiting comm r rank w) ->
  (exists comm',
      process_individuals_merger rank size comm
      = (Some {| all_filename_arr := concat (map filename_arr ws);
                 all_count_arr := concat (map count_arr ws);
                 all_chrp_data := map chrp_data ws |}, comm')
      /\ forall key, comm' !! key
           = if decide (read_by_merger rank 0 (length ws) key)
             then tail <$> comm !! key else comm !! key)
  /\ forall comm0 r tag,
       (r < size - 1)%nat -> (tag = 12 \/ tag = 7 \/ tag = 13)%nat ->
       silent comm0 (r, rank, tag) ->
       (process_individuals_merger rank size comm0).1 = None.
Proof.
  intros -> Hwait. unfold process_individuals_merger.
  replace (S (length ws) - 1)%nat with (length ws) by lia. split.
  - apply (merger_loop_collects rank ws 0
             {| all_filename_arr := []; all_count_arr := []; all_chrp_data := [] |}).
    exact Hwait.
  - intros comm0 r tag Hr Htag Hsilent.
    apply (merger_loop_missing _ _ _ _ r tag); [|done..].
    apply elem_of_seq. lia.
Qed.

(** ** Partitions of the input *)

Lemma contiguous_le start ranges last :
  contiguous start ranges last -> (start - 1 <= last)%Z.
Proof. induction 1; lia. Qed.

Lemma take_drop_join {A} (l : list A) (x y z : nat) :
  (x <= y <= z)%nat ->
  take (y - x) (drop x l) ++ take (z - y) (drop y l) = take (z - x) (drop x l).
Proof.
  intros Hxyz.
  replace (drop y l) with (drop (y - x) (drop x l))
    by (rewrite drop_drop; f_equal; lia).
  rewrite take_take_drop. f_equal. lia.
Qed.

Lemma select_data_join s rawdata start stop last total :
  (1 <= start)%Z -> (start - 1 <= stop)%Z -> (stop <= last)%Z -> (0 <= total)%Z ->
  select_data s rawdata start (Z.min stop total)
  ++ select_data s rawdata (stop + 1) (Z.min last total)
  = select_data s rawdata start (Z.min last total).
Proof.
  intros Hstart Hstop Hlast Htotal.
  rewrite !select_data_take_drop by lia.
  rewrite <- map_app, <- List.filter_app. do 2 f_equal.
  destruct (Z.le_gt_cases stop total) as [Hin|Hout].
  - replace (Z.to_nat (Z.min stop total - (start - 1)))
      with (Z.to_nat stop - Z.to_nat (start - 1))%nat by lia.
    replace (Z.to_nat (Z.min last total - (stop + 1 - 1)))
      with (Z.to_nat (Z.min last total) - Z.to_nat stop)%nat by lia.
    replace (Z.to_nat (stop + 1 - 1)) with (Z.to_nat stop) by lia.
    replace (Z.to_nat (Z.min last total - (start - 1)))
      with (Z.to_nat (Z.min last total) - Z.to_nat (start - 1))%nat by lia.
    apply take_drop_join. lia.
  - replace (Z.to_nat (Z.min last total - (stop + 1 - 1))) with 0%nat by lia.
    cbn [take]. rewrite app_nil_r. f_equal. lia.
Qed.

Lemma select_data_partition s rawdata total start ranges last :
  contiguous start ranges last -> (1 <= start)%Z -> (0 <= total)%Z ->
  concat (map (fun range => select_data s rawdata range.1 (Z.min range.2 total)) ranges)
  = select_data s rawdata start (Z.min last total).
Proof.
  induction 1 as [start|start stop ranges last Hstop Hrest IH]; intros Hstart Htotal.
  - cbn. rewrite select_data_take_drop by lia.
    by replace (Z.to_nat _) with 0%nat by lia.
  - cbn [map concat fst snd]. rewrite IH by lia.
    apply select_data_join; try lia.
    apply contiguous_le in Hrest. lia.
Qed.

Section PartitionFacts.
Context `{PyFloat}.

Lemma kept_records_concat s col pieces :
  kept_records s col (concat pieces) = concat (map (kept_records s col) pieces).
Proof.
  unfold kept_records. induction pieces as [|piece pieces IH]; [done|].
  cbn [concat map]. by rewrite omap_app, IH.
Qed.

Lemma lookup_send (source dest tag : nat) (obj : payload)
    (comm : gmap (nat * nat * nat) (list payload)) (key : nat * nat * nat) :
  (send source dest tag obj comm) !! key
  = if decide (key = (source, dest, tag))
    then Some (default [] (comm !! key) ++ [obj]) else comm !! key.
Proof.
  unfold send. rewrite lookup_insert.
  repeat case_decide; by simplify_eq.
Qed.

Lemma send_contribution_waiting rank merge_rank w comm :
  (forall tag, comm !! (rank, merge_rank, tag) = None) ->
  waiting (send_contribution rank merge_rank w comm) rank merge_rank w
  /\ forall key, key.1.1 <> rank ->
       send_contribution rank merge_rank w comm !! key = comm !! key.
Proof.
  intros Hfresh. unfold send_contribution. split.
  - exists [], [], [].
    rewrite !lookup_send, !Hfresh.
    repeat case_decide; by simplify_eq.
  - intros [[source dest] tag] Hkey. cbn in Hkey.
    rewrite !lookup_send. repeat case_decide; by simplify_eq.
Qed.

Lemma run_workers_waiting fs inputfile columfile c total size ranges : forall rank comm ws,
  Forall2 (fun range w =>
             worker_contribution proper fs inputfile columfile c range.1 range.2 total
             = Some w) ranges ws ->
  (forall key, (rank <= key.1.1)%nat -> comm !! key = None) ->
  let sent := run_workers fs inputfile columfile c total size rank ranges comm in
  sent.1 = true
  /\ (forall r w, ws !! r = Some w -> waiting sent.2 (rank + r) (size - 1) w)
  /\ forall key, (key.1.1 < rank)%nat -> sent.2 !! key = comm !! key.
Proof.
  induction ranges as [|[counter stop] ranges IH]; intros rank comm ws Hws Hfresh.
  - apply Forall2_nil_inv_l in Hws as ->. cbn. by repeat split.
  - apply Forall2_cons_inv_l in Hws as (w & ws' & Hw & Hws' & ->).
    cbn in Hw. cbn [run_workers]. unfold process_individuals_worker. rewrite Hw.
    cbn [fst snd andb].
    destruct (send_contribution_waiting rank (size - 1) w comm) as [Hmine Hothers].
    { intros tag. apply Hfresh. cbn. lia. }
    destruct (IH (S rank) (send_contribution rank (size - 1) w comm) ws' Hws')
      as (Hok & Hwait & Hbelow).
    { intros key Hkey. rewrite Hothers by lia. apply Hfresh. lia. }
    split; [exact Hok|]. split.
    + intros [|r] w' Hr.
      * injection Hr as <-. rewrite Nat.add_0_r.
        destruct Hmine as (q12 & q7 & q13 & H12 & H7 & H13).
        exists q12, q7, q13. rewrite !Hbelow by (cbn; lia). done.
      * replace (rank + S r)%nat with (S rank + r)%nat by lia. by apply Hwait.
    + intros key Hkey. rewrite Hbelow by lia. apply Hothers. lia.
Qed.

Lemma workers_complete fs inputfile columfile c total rawdata header more ranges :
  fs !! inputfile = Some rawdata -> fs !! columfile = Some (header :: more) ->
  exists ws,
    Forall2 (fun range w =>
               worker_contribution proper fs inputfile columfile c range.1 range.2 total
               = Some w) ranges ws
    /\ forall i,
         map (fun d : gmap nat (list (list string)) => default [] (d !! i)) (map chrp_data ws)
         = map (fun range =>
                  if decide (i < length (split TAB (rstrip_newline header)) - start_data)%nat
                  then kept_records proper (i + start_data)
                         (select_data proper rawdata range.1 (Z.min range.2 total))
                  else []) ranges.
Proof.
  intros Hin Hcol. induction ranges as [|[counter stop] ranges (ws & Hws & Hrecords)].
  - exists []. split; [constructor|done].
  - destruct (worker_contribution_readable proper fs inputfile columfile c counter stop total
                rawdata header more Hin Hcol) as (w & Hw & _ & _ & Hd).
    exists (w :: ws). split; [by constructor|].
    intros i. cbn [map fst snd]. rewrite Hrecords, Hd. by case_decide.
Qed.

(** C3: with the data lines cut into ranges that follow one another from
    line 1 to line [last], one worker of [individuals_mpi_proper.py] per
    range and the merger after them, the merger holds one record mapping per
    worker, and for every individual the record lists of these mappings, put
    one after the other in rank order, are the record list of the single
    worker whose range is 1 to [last]: the same records from the same lines,
    in line order.  So the union of the workers' record sets is the single
    worker's set; [last] at or past the end of the file is the case of a
    partition of the whole file. *)
Theorem partition_refinement fs inputfile columfile c total ranges last whole :
  contiguous 1 ranges last -> (0 <= total)%Z ->
  worker_contribution proper fs inputfile columfile c 1 last total = Some whole ->
  let size := S (length ranges) in
  let sent := run_workers fs inputfile columfile c total size 0 ranges ∅ in
  sent.1 = true
  /\ exists m comm',
       process_individuals_merger (size - 1) size sent.2 = (Some m, comm')
       /\ length (all_chrp_data m) = length ranges
       /\ forall i,
            concat (map (fun d : gmap nat (list (list string)) => default [] (d !! i))
                      (all_chrp_data m))
            = default [] (chrp_data whole !! i).
Proof.
  intros Hranges Htotal Hwhole size sent.
  destruct (worker_contribution_inv _ _ _ _ _ _ _ _ _ Hwhole)
    as (rawdata & header & more & Hin & Hcol).
  destruct (worker_contribution_readable proper fs inputfile columfile c 1 last total
              rawdata header more Hin Hcol) as (whole' & Hwhole' & _ & _ & Hd).
  assert (whole' = whole) as -> by congruence.
  destruct (workers_complete fs inputfile columfile c total rawdata header more ranges
              Hin Hcol) as (ws & Hws & Hrecords).
  destruct (run_workers_waiting fs inputfile columfile c total size ranges 0 ∅ ws Hws)
    as (Hok & Hwait & _); [done|].
  fold sent in Hok, Hwait.
  assert (length ws = length ranges) as Hlen by (symmetry; by eapply Forall2_length).
  destruct (merger_loop_collects (size - 1) ws 0
              {| all_filename_arr := []; all_count_arr := []; all_chrp_data := [] |}
              sent.2 Hwait) as (comm' & Hmerge & _).
  split; [exact Hok|].
  eexists _, comm'. split.
  { unfold process_individuals_merger.
    replace (size - 1)%nat with (length ws) at 2 by (unfold size; lia).
    exact Hmerge. }
  cbn [all_chrp_data app].
  split; [by rewrite length_map|].
  intros i. rewrite Hrecords, Hd.
  case_decide.
  - rewrite <- (select_data_partition proper rawdata total 1 ranges last) by (done || lia).
    rewrite kept_records_concat, map_map. done.
  - cbn. clear. induction ranges as [|range ranges IH]; [done|exact IH].
Qed.

End PartitionFacts.

(** ** The theorems at work, and where the stated claims fail *)

Lemma classify_spec_witness :
  classify "1|0" 0.25%float = true /\ classify "|1" 0.25%float = false.
Proof.
  split.
  - apply (proj1 (classify_spec "1|0" 0.25%float)). right. split; vm_compute; reflexivity.
  - apply (proj2 (classify_spec "|1" 0.25%float)). vm_compute; reflexivity.
Defined.

Lemma parse_af_first_AF_witness :
  split ";" "AC=1;AF=0.25,0.9;AN=2" = ["AC=1"] ++ ("AF=" +:+ "0.25,0.9") :: ["AN=2"]
  /\ @parse_af Decimal.decimal_literals proper "AC=1;AF=0.25,0.9;AN=2"
     = @to_float Decimal.decimal_literals (before "," (before "=" "0.25,0.9"))
  /\ @to_float Decimal.decimal_literals (before "," (before "=" "0.25,0.9")) = Ok 0.25%float.
Proof.
  assert (split ";" "AC=1;AF=0.25,0.9;AN=2" = ["AC=1"] ++ ("AF=" +:+ "0.25,0.9") :: ["AN=2"])
    as Hparts by (vm_compute; reflexivity).
  split; [exact Hparts|]. split; [|vm_compute; reflexivity].
  refine (proj1 (@parse_af_first_AF Decimal.decimal_literals proper
                   "AC=1;AF=0.25,0.9;AN=2" ["AC=1"] "0.25,0.9" ["AN=2"] Hparts _)).
  repeat constructor.
Defined.

(** C2 as stated fails on a value holding [=]: the text before the first
    comma of [0.5=x] is [0.5=x], which [float()] refuses, so the claim
    promises a skipped line; the scripts read [0.5]. *)
Lemma af_value_cut_at_equals_sign :
  split ";" "AF=0.5=x" = [] ++ ("AF=" +:+ "0.5=x") :: []
  /\ @to_float Decimal.decimal_literals (before "," "0.5=x") = Skip ValueError
  /\ @parse_af Decimal.decimal_literals proper "AF=0.5=x" = Ok 0.5%float
  /\ @parse_af Decimal.decimal_literals proper "AF=0.5=x"
       <> @to_float Decimal.decimal_literals (before "," "0.5=x").
Proof.
  split; [vm_compute; reflexivity|]. split; [vm_compute; reflexivity|].
  split; [vm_compute; reflexivity|]. vm_compute. discriminate.
Qed.

Lemma parse_af_fallback_witness :
  split ";" "a;b;c;d;e;f;g;h;k=0.75" !! 8%nat = Some ("k" +:+ String "=" "0.75")
  /\ @parse_af Decimal.decimal_literals proper "a;b;c;d;e;f;g;h;k=0.75"
     = @af_number Decimal.decimal_literals (before "=" "0.75")
  /\ @af_number Decimal.decimal_literals (before "=" "0.75") = Ok 0.75%float.
Proof.
  assert (split ";" "a;b;c;d;e;f;g;h;k=0.75" !! 8%nat = Some ("k" +:+ String "=" "0.75"))
    as H8 by (vm_compute; reflexivity).
  split; [exact H8|]. split; [|vm_compute; reflexivity].
  refine (proj1 (@parse_af_fallback Decimal.decimal_literals proper
                   "a;b;c;d;e;f;g;h;k=0.75" _) "k" "0.75" H8 _).
  - vm_compute. repeat constructor.
  - vm_compute; reflexivity.
Defined.

(** C5 as stated fails in [individuals_mpi_proper.py] (and in
    [individuals_mpi_fixed.py]) on a bare ninth component: the claim has its
    text, [0.75], used as the value; the line is skipped. *)
Lemma bare_ninth_component_skipped :
  Forall (fun p => startswith p "AF=" = false) (split ";" "a;b;c;d;e;f;g;h;0.75")
  /\ split ";" "a;b;c;d;e;f;g;h;0.75" !! 8%nat = Some "0.75"
  /\ contains "=" "0.75" = false
  /\ @af_number Decimal.decimal_literals "0.75" = Ok 0.75%float
  /\ @parse_af Decimal.decimal_literals proper "a;b;c;d;e;f;g;h;0.75" = Skip NoAF
  /\ @parse_af Decimal.decimal_literals fixed "a;b;c;d;e;f;g;h;0.75" = Skip NoAF.
Proof.
  split; [vm_compute; repeat constructor|].
  repeat split; vm_compute; reflexivity.
Qed.

Lemma parse_line_core_witness :
  @parse_line Decimal.decimal_literals proper 10 Sample.line1
  = Ok {| second := ["100"; "rs1"; "A"; "G"; "0.25"]; first := "1|0";
          af_value := 0.25%float |}
  /\ length (second {| second := ["100"; "rs1"; "A"; "G"; "0.25"]; first := "1|0";
                       af_value := 0.25%float |}) = 5%nat.
Proof.
  assert (@parse_line Decimal.decimal_literals proper 10 Sample.line1
          = Ok {| second := ["100"; "rs1"; "A"; "G"; "0.25"]; first := "1|0";
                  af_value := 0.25%float |}) as Hline by (vm_compute; reflexivity).
  split; [exact Hline|].
  exact (proj1 (@parse_line_core Decimal.decimal_literals proper 10 Sample.line1 _ Hline)).
Defined.

Lemma short_line_skipped_witness :
  length (split TAB Sample.short_line) = 7%nat
  /\ @process_line Decimal.decimal_literals proper 0 9 ({[ 0%nat := [] ]}, 0%nat)
       Sample.short_line
     = ({[ 0%nat := [] ]}, 0%nat).
Proof.
  assert (length (split TAB Sample.short_line) = 7%nat) as Hlen by (vm_compute; reflexivity).
  split; [exact Hlen|].
  refine (proj2 (@short_line_skipped Decimal.decimal_literals proper 0 9 _ Sample.short_line _)).
  right. rewrite Hlen. lia.
Defined.

Lemma working_set_witness :
  select_data debug Sample.rawdata 1 (Z.min 10 4)
  = map rstrip_newline (List.filter regex_match
      (lines_in_range Sample.rawdata 1 1 (Z.min 10 4)))
  /\ select_data debug Sample.rawdata 1 (Z.min 10 4)
     = [Sample.line1; Sample.line2; Sample.line3].
Proof.
  split; [|vm_compute; reflexivity].
  refine (proj1 (@working_set Decimal.decimal_literals debug Sample.files
                   "ALL.chr1.250000.vcf" "columns.txt" "1" 1 10 4
                   Sample.rawdata (Sample.header +:+ String NEWLINE "") [] _ _ _ _ _)).
  - vm_compute; reflexivity.
  - vm_compute; reflexivity.
  - lia.
  - lia.
  - lia.
Defined.

(** C4 as stated fails on a file with a comment line at or before the
    range.  The sample file has one comment line, then four data lines.  By
    the claim the range 1 to 2 holds the first two data lines; the scripts
    take lines 1 and 2 of the file, the comment line and the first data
    line, and keep the latter.  The worker's contribution for the range
    lacks the record the second data line gives the first individual. *)
Lemma comment_lines_counted_in_range :
  List.filter regex_match Sample.rawdata
  = Sample.readlines [Sample.line1; Sample.line2; Sample.line3; Sample.short_line]
  /\ map rstrip_newline
       (lines_in_range (List.filter regex_match Sample.rawdata) 1 1 (Z.min 2 5))
     = [Sample.line1; Sample.line2]
  /\ select_data proper Sample.rawdata 1 (Z.min 2 5) = [Sample.line1]
  /\ select_data fixed Sample.rawdata 1 (Z.min 2 5) = [Sample.line1]
  /\ select_data debug Sample.rawdata 1 (Z.min 2 5) = [Sample.line1]
  /\ @kept_record Decimal.decimal_literals proper 9 Sample.line2
     = Some ["200"; "rs2"; "C"; "T"; "0.75"]
  /\ @worker_contribution Decimal.decimal_literals proper Sample.files
       "ALL.chr1.250000.vcf" "columns.txt" "1" 1 2 5 = Some Sample.first_half
  /\ chrp_data Sample.first_half !! 0%nat = Some [].
Proof. repeat split; vm_compute; reflexivity. Qed.

Lemma contribution_consistent_witness :
  exists header more n,
    Sample.files !! "columns.txt" = Some (header :: more)
    /\ n = (length (split TAB (rstrip_newline header)) - start_data)%nat
    /\ length ["chr1.HG00096"; "chr1.HG00097"] = n.
Proof.
  assert (@worker_contribution Decimal.decimal_literals proper Sample.files
            "ALL.chr1.250000.vcf" "columns.txt" "1" 1 5 5 = Some Sample.whole)
    as Hrun by (vm_compute; reflexivity).
  destruct (@contribution_consistent Decimal.decimal_literals proper Sample.files
              "ALL.chr1.250000.vcf" "columns.txt" "1" 1 5 5 _ Hrun)
    as (header & more & n & Hcol & Hn & Hf & _).
  exists header, more, n. split; [exact Hcol|]. split; [exact Hn|exact Hf].
Defined.

Lemma short_header_empty_contribution_witness :
  @worker_contribution Decimal.decimal_literals proper Sample.files
    "ALL.chr1.250000.vcf" "two_columns.txt" "1" 1 5 5
  = Some {| filename_arr := []; count_arr := []; chrp_data := ∅ |}.
Proof.
  refine (proj1 (@short_header_empty_contribution Decimal.decimal_literals proper
                   Sample.files "ALL.chr1.250000.vcf" "two_columns.txt" "1" 1 5 5
                   Sample.rawdata (Sample.tabbed ["#CHROM"; "POS"] +:+ String NEWLINE "")
                   [] _ _ _)).
  - vm_compute; reflexivity.
  - vm_compute; reflexivity.
  - vm_compute. lia.
Defined.

(** C6 as stated fails: on a header of two columns no error is raised; the
    worker completes, sends an empty contribution and returns [True]. *)
Lemma short_header_accepted :
  (length (split TAB (rstrip_newline (Sample.tabbed ["#CHROM"; "POS"] +:+ String NEWLINE ""))) < 9)%nat
  /\ @worker_contribution Decimal.decimal_literals proper Sample.files
       "ALL.chr1.250000.vcf" "two_columns.txt" "1" 1 5 5 <> None
  /\ (@process_individuals_worker Decimal.decimal_literals Sample.files
        "ALL.chr1.250000.vcf" "two_columns.txt" "1" 1 5 5 0 2 ∅).1 = true.
Proof.
  split; [vm_compute; lia|]. split; [vm_compute; discriminate|vm_compute; reflexivity].
Qed.

Lemma merger_collects_witness :
  (process_individuals_merger 2 3
     (send_contribution 1 2 Sample.second_half
        (send_contribution 0 2 Sample.first_half ∅))).1
  = Some {| all_filename_arr := concat (map filename_arr [Sample.first_half; Sample.second_half]);
            all_count_arr := concat (map count_arr [Sample.first_half; Sample.second_half]);
            all_chrp_data := map chrp_data [Sample.first_half; Sample.second_half] |}.
Proof.
  destruct (merger_collects 2 3 [Sample.first_half; Sample.second_half]
              (send_contribution 1 2 Sample.second_half
                 (send_contribution 0 2 Sample.first_half ∅)) eq_refl)
    as [(comm' & Hmerge & _) _].
  - intros [|[|r]] w Hr; [injection Hr as <-|injection Hr as <-|discriminate Hr];
      exists [], [], []; repeat split; vm_compute; reflexivity.
  - rewrite Hmerge. reflexivity.
Defined.

Lemma partition_refinement_witness :
  contiguous 1 [(1, 2); (3, 5)]%Z 5
  /\ @worker_contribution Decimal.decimal_literals proper Sample.files
       "ALL.chr1.250000.vcf" "columns.txt" "1" 1 5 5 = Some Sample.whole
  /\ (@run_workers Decimal.decimal_literals Sample.files "ALL.chr1.250000.vcf" "columns.txt"
        "1" 5 3 0 [(1, 2); (3, 5)]%Z ∅).1 = true.
Proof.
  assert (contiguous 1 [(1, 2); (3, 5)]%Z 5) as Hranges.
  { apply contiguous_cons; [lia|]. apply contiguous_cons; [lia|]. exact (contiguous_nil 6). }
  assert (@worker_contribution Decimal.decimal_literals proper Sample.files
            "ALL.chr1.250000.vcf" "columns.txt" "1" 1 5 5 = Some Sample.whole)
    as Hwhole by (vm_compute; reflexivity).
  split; [exact Hranges|]. split; [exact Hwhole|].
  refine (proj1 (@partition_refinement Decimal.decimal_literals Sample.files
                   "ALL.chr1.250000.vcf" "columns.txt" "1" 5 [(1, 2); (3, 5)]%Z 5
                   Sample.whole Hranges _ Hwhole)).
  lia.
Defined.

(** The sample file cut in two: the two workers hold [Sample.first_half] and
    [Sample.second_half], the merger gets both mappings, and each
    individual's two lists put together are the list of [Sample.whole]. *)
Example sample_partition :
  (@process_individuals_merger 2 3
     (@run_workers Decimal.decimal_literals Sample.files "ALL.chr1.250000.vcf" "columns.txt"
        "1" 5 3 0 [(1, 2); (3, 5)]%Z ∅).2).1
  = Some {| all_filename_arr := ["chr1.HG00096"; "chr1.HG00097"; "chr1.HG00096"; "chr1.HG00097"];
            all_count_arr := [0; 1; 2; 0]%nat;
            all_chrp_data := [chrp_data Sample.first_half; chrp_data Sample.second_half] |}
  /\ default [] (chrp_data Sample.first_half !! 0%nat)
     ++ default [] (chrp_data Sample.second_half !! 0%nat)
     = default [] (chrp_data Sample.whole !! 0%nat)
  /\ default [] (chrp_data Sample.first_half !! 1%nat)
     ++ default [] (chrp_data Sample.second_half !! 1%nat)
     = default [] (chrp_data Sample.whole !! 1%nat).
Proof. repeat split; vm_compute; reflexivity. Qed.

(** ** Where the columns file is looked for *)

Lemma first_existing_Some fs paths path :
  first_existing fs paths = Some path ->
  exists earlier later,
    paths = earlier ++ path :: later
    /\ Forall (fun p => path_exists fs p = false) earlier
    /\ path_exists fs path = true.
Proof.
  induction paths as [|p paths IH]; cbn; [done|].
  destruct (path_exists fs p) eqn:Hp.
  - intros [= ->]. by exists [], paths.
  - intros (earlier & later & -> & Hbefore & Hpath)%IH.
    exists (p :: earlier), later. split; [done|]. split; [by constructor|done].
Qed.

Lemma first_existing_None fs paths :
  first_existing fs paths = None <-> Forall (fun p => path_exists fs p = false) paths.
Proof.
  induction paths as [|p paths IH]; cbn; [by split|].
  destruct (path_exists fs p) eqn:Hp.
  - split; [done|]. intros [Hnone _]%Forall_cons_1. congruence.
  - rewrite IH, Forall_cons. tauto.
Qed.

Lemma first_existing_again fs paths path :
  path ∈ paths -> first_existing fs (paths ++ [path]) = first_existing fs paths.
Proof.
  induction paths as [|p paths IH]; [by intros ?%elem_of_nil|].
  intros Hin. cbn. destruct (path_exists fs p) eqn:Hp; [done|].
  apply elem_of_cons in Hin as [-> | Hin]; [|by apply IH].
  clear IH. induction paths as [|q paths IH]; cbn.
  - by rewrite Hp.
  - by destruct (path_exists fs q).
Qed.

(** X1: [find_columns_file] searches three places in this order:
    [columns.txt] in the working directory, [data/20130502/columns.txt],
    then [columns.txt] in the directory of the input file.  Whether the
    input path is absolute changes nothing: the place it adds is the third
    one again.  The path returned is the first of the three that exists, so
    every place before it is missing and [columns.txt] of the working
    directory wins over the one beside the input; [FileNotFoundError] is
    raised exactly when none of the three exists. *)
Theorem find_columns_file_places fs input_file :
  let places := ["columns.txt"; "data/20130502/columns.txt";
                 path_join (dirname input_file) "columns.txt"] in
  (forall path, find_columns_file fs input_file = Some path ->
     exists earlier later,
       places = earlier ++ path :: later
       /\ Forall (fun p => path_exists fs p = false) earlier
       /\ path_exists fs path = true)
  /\ (find_columns_file fs input_file = None
      <-> Forall (fun p => path_exists fs p = false) places)
  /\ (path_exists fs "columns.txt" = true ->
        find_columns_file fs input_file = Some "columns.txt").
Proof.
  intros places.
  assert (find_columns_file fs input_file = first_existing fs places) as Hfind.
  { unfold find_columns_file. destruct (isabs input_file); [|done].
    apply first_existing_again. unfold places. set_solver. }
  rewrite Hfind. split; [|split].
  - intros path Hpath. by apply first_existing_Some.
  - apply first_existing_None.
  - intros Hcwd. unfold places. cbn. by rewrite Hcwd.
Qed.

Lemma upto_last_slash_without p : contains "/" p = false -> upto_last_slash p = "".
Proof.
  induction p as [|a rest IH]; cbn; [done|].
  destruct (Ascii.eqb a "/"); cbn; [done|]. intros Hrest. by rewrite IH.
Qed.

Lemma upto_last_slash_append dir base :
  contains "/" base = false ->
  upto_last_slash (dir +:+ String "/" base) = dir +:+ "/".
Proof.
  intros Hbase. induction dir as [|a dir IH]; simpl.
  - by rewrite (upto_last_slash_without base Hbase).
  - rewrite IH. by destruct dir.
Qed.

Lemma only_slashes_append dir :
  dir <> "" -> endswith dir "/" = false -> only_slashes (dir +:+ "/") = false.
Proof.
  induction dir as [|a dir IH]; [done|]. intros _ Hend. simpl.
  destruct dir as [|b dir].
  - simpl in Hend. by rewrite Hend.
  - rewrite IH by done. apply andb_false_r.
Qed.

Lemma rstrip_append_slash dir :
  dir <> "" -> endswith dir "/" = false -> rstrip "/" (dir +:+ "/") = dir.
Proof.
  induction dir as [|a dir IH]; [done|]. intros _ Hend.
  destruct dir as [|b dir].
  - simpl in Hend. simpl. by rewrite Hend.
  - change (rstrip "/" (String a (String b dir) +:+ "/"))
      with (match rstrip "/" (String b dir +:+ "/") with
            | EmptyString => if Ascii.eqb a "/" then "" else String a ""
            | kept => String a kept
            end).
    by rewrite IH.
Qed.

(** X2: the third place searched is [columns.txt] beside the input file:
    for an input [dir/base] it is [dir/columns.txt]; for an input without a
    directory part it is [columns.txt] again, so that only two places are
    searched. *)
Theorem find_columns_file_beside_input fs :
  (forall dir base,
      dir <> "" -> endswith dir "/" = false -> contains "/" base = false ->
      find_columns_file fs (dir +:+ String "/" base)
      = first_existing fs ["columns.txt"; "data/20130502/columns.txt";
                           dir +:+ "/columns.txt"])
  /\ (forall base,
        contains "/" base = false ->
        find_columns_file fs base
        = first_existing fs ["columns.txt"; "data/20130502/columns.txt"]).
Proof.
  split.
  - intros dir base Hdir Hend Hbase.
    assert (dirname (dir +:+ String "/" base) = dir) as Hdirname.
    { unfold dirname. rewrite upto_last_slash_append by done.
      rewrite only_slashes_append by done.
      replace (String.eqb (dir +:+ "/") "") with false by (by destruct dir).
      by apply rstrip_append_slash. }
    assert (path_join dir "columns.txt" = dir +:+ "/columns.txt") as Hjoin.
    { unfold path_join. rewrite Hend.
      replace (String.eqb dir "") with false by (by destruct dir). done. }
    unfold find_columns_file. rewrite Hdirname, Hjoin.
    destruct (isabs _); [|done].
    apply (first_existing_again fs [_; _; _]). set_solver.
  - intros base Hbase.
    assert (isabs base = false) as Hrel.
    { destruct base as [|a rest]; [done|].
      change (Ascii.eqb a "/" || contains "/" rest = false) in Hbase.
      change (Ascii.eqb "/" a && startswith rest "" = false).
      destruct (Ascii.eqb_spec "/" a) as [<-|]; [|done].
      by rewrite Ascii.eqb_refl in Hbase. }
    unfold find_columns_file, dirname. rewrite Hrel, upto_last_slash_without by done.
    apply (first_existing_again fs [_; _]). set_solver.
Qed.

Section DebugFacts.
Context `{PyFloat}.

(** X3: the worker of [individuals_mpi_debug.py] is the common worker on
    the columns file it settles on: the path given when that is absolute or
    exists, the same name beside the input file otherwise. *)
Theorem debug_contribution_resolved fs inputfile columfile c counter stop total :
  Debug.contribution_of fs inputfile columfile c counter stop total
  = worker_contribution debug fs inputfile
      (if isabs columfile || path_exists fs columfile then columfile
       else path_join (dirname inputfile) columfile)
      c counter stop total.
Proof.
  unfold Debug.contribution_of, worker_contribution, Debug.columnlines.
  destruct (isabs columfile); cbn [negb orb]; [done|].
  by destruct (path_exists fs columfile).
Qed.

End DebugFacts.

(** ** Ranges at and beyond their bounds *)

Lemma slice_from_end {A} (l : list A) lo hi :
  (lo < 0)%Z -> (- Z.of_nat (length l) <= lo)%Z -> (Z.of_nat (length l) <= hi)%Z ->
  slice l lo hi = drop (length l - Z.to_nat (- lo)) l.
Proof.
  intros Hneg Hlo Hhi. unfold slice, adjust_index.
  destruct (Z.ltb_spec lo 0); [|lia]. destruct (Z.ltb_spec hi 0); [lia|].
  rewrite Z.max_r, Z.min_r by lia.
  replace (Z.to_nat (lo + Z.of_nat (length l))) with (length l - Z.to_nat (- lo))%nat by lia.
  apply take_ge. rewrite length_drop. lia.
Qed.

(** X4: a start below line 1.  [individuals_mpi_proper.py] and
    [individuals_mpi_fixed.py] begin at the first line; the slice of
    [individuals_mpi_debug.py] gets a negative bound and, with a stop at or
    past the end of the file, gives the last [1 - counter] lines only (the
    last line alone for [counter = 0]). *)
Theorem select_data_start_below_one rawdata counter ending :
  (counter <= 0)%Z ->
  select_data proper rawdata counter ending = select_data proper rawdata 1 ending
  /\ select_data fixed rawdata counter ending = select_data fixed rawdata 1 ending
  /\ ((1 - counter <= Z.of_nat (length rawdata))%Z ->
      (Z.of_nat (length rawdata) <= ending)%Z ->
      select_data debug rawdata counter ending
      = map rstrip_newline (List.filter regex_match
          (drop (length rawdata - Z.to_nat (1 - counter)) rawdata))).
Proof.
  intros Hcounter. unfold select_data.
  rewrite (Z.max_l 0 (counter - 1)), (Z.max_l 0 (1 - 1)) by lia.
  split; [done|]. split; [done|].
  intros Hfits Hstop. rewrite slice_from_end by lia.
  by replace (- (counter - 1))%Z with (1 - counter)%Z by lia.
Qed.

(** X5: a negative end of range ([stop] or [total] below zero) is a bound
    counted back from the end of the file: the scripts select as for the
    end [len(rawdata) + ending], or nothing when that is negative too. *)
Theorem select_data_negative_end s rawdata counter ending :
  (ending < 0)%Z ->
  select_data s rawdata counter ending
  = select_data s rawdata counter (Z.max 0 (Z.of_nat (length rawdata) + ending)).
Proof.
  intros Hneg. unfold select_data. do 2 f_equal.
  assert (forall lo, slice rawdata lo ending
                     = slice rawdata lo (Z.max 0 (Z.of_nat (length rawdata) + ending)))
    as Hslice.
  { intros lo. unfold slice. do 3 f_equal. unfold adjust_index.
    destruct (Z.ltb_spec ending 0); [|lia].
    destruct (Z.ltb_spec (Z.max 0 (Z.of_nat (length rawdata) + ending)) 0); lia. }
  assert (Z.min ending (Z.of_nat (length rawdata)) = ending) as -> by lia.
  assert (Z.min (Z.max 0 (Z.of_nat (length rawdata) + ending)) (Z.of_nat (length rawdata))
          = Z.max 0 (Z.of_nat (length rawdata) + ending)) as -> by lia.
  destruct s; apply Hslice.
Qed.

Lemma select_data_length s rawdata counter ending :
  (length (select_data s rawdata counter ending) <= length rawdata)%nat.
Proof.
  unfold select_data. rewrite length_map.
  etransitivity; [apply List.filter_length_le|].
  destruct s; unfold slice; rewrite length_take, length_drop; lia.
Qed.

Section ContributionFacts.
Context `{PyFloat}.

Lemma kept_records_shape s col data :
  Forall (fun record => length record = 5%nat) (kept_records s col data)
  /\ (length (kept_records s col data) <= length data)%nat.
Proof.
  unfold kept_records. split.
  - apply Forall_forall. intros record (line & _ & Hkept)%list_elem_of_omap.
    unfold kept_record in Hkept.
    destruct (parse_line s col line) as [p|] eqn:Hline; [|done].
    destruct (classify (first p) (af_value p)); [|done].
    injection Hkept as <-.
    by apply parse_line_Ok in Hline
      as (f1 & f2 & f3 & f4 & f7 & _ & _ & _ & _ & _ & _ & _ & ->).
  - induction data as [|line data IH]; [done|].
    cbn [omap list_omap]. destruct (kept_record s col line); cbn [length]; lia.
Qed.

Lemma filenames_of_header c columndata :
  map (filename_of c columndata) (seq 0 (length columndata - start_data))
  = map (fun name => "chr" +:+ c +:+ "." +:+ name) (drop start_data columndata).
Proof.
  apply list_eq. intros i. rewrite !list_lookup_fmap, lookup_drop.
  destruct (decide (i < length columndata - start_data)%nat) as [Hi|Hi].
  - rewrite lookup_seq_lt by done.
    change (Some (filename_of c columndata i)
            = (fun name => "chr" +:+ c +:+ "." +:+ name) <$> columndata !! (start_data + i)%nat).
    unfold filename_of.
    replace (i + start_data)%nat with (start_data + i)%nat by lia.
    destruct (lookup_lt_is_Some_2 columndata (start_data + i)) as [name ->]; [lia|].
    reflexivity.
  - rewrite lookup_seq_ge by lia. rewrite lookup_ge_None_2 by lia. done.
Qed.

(** X6: the output identifiers are [chr<c>.<name>] for the names of the
    header from its tenth column on, in header order, the line end of the
    header taken off; neither the range nor the data has a part in them. *)
Theorem filename_arr_of_header s fs inputfile columfile c counter stop total w header more :
  worker_contribution s fs inputfile columfile c counter stop total = Some w ->
  fs !! columfile = Some (header :: more) ->
  filename_arr w
  = map (fun name => "chr" +:+ c +:+ "." +:+ name)
      (drop 9 (split TAB (rstrip_newline header))).
Proof.
  intros Hw Hcol.
  destruct (worker_contribution_inv _ _ _ _ _ _ _ _ _ Hw)
    as (rawdata & header' & more' & Hin & Hcol').
  assert (header' = header) as -> by congruence.
  assert (more' = more) as -> by congruence.
  destruct (worker_contribution_readable s fs inputfile columfile c counter stop total
              rawdata header more Hin Hcol) as (w' & Hw' & Hf & _).
  assert (w' = w) as -> by congruence.
  rewrite Hf. apply filenames_of_header.
Qed.

(** X7: in every contribution every record has exactly five fields, and no
    individual has more records than the file has lines; its count is
    bounded likewise. *)
Theorem contribution_records_bounded s fs inputfile columfile c counter stop total w rawdata :
  worker_contribution s fs inputfile columfile c counter stop total = Some w ->
  fs !! inputfile = Some rawdata ->
  (forall i records,
      chrp_data w !! i = Some records ->
      Forall (fun record => length record = 5%nat) records
      /\ (length records <= length rawdata)%nat)
  /\ Forall (fun count => (count <= length rawdata)%nat) (count_arr w).
Proof.
  intros Hw Hin.
  destruct (worker_contribution_inv _ _ _ _ _ _ _ _ _ Hw)
    as (rawdata' & header & more & Hin' & Hcol).
  assert (rawdata' = rawdata) as -> by congruence.
  destruct (worker_contribution_readable s fs inputfile columfile c counter stop total
              rawdata header more Hin Hcol) as (w' & Hw' & _ & Hc & Hd).
  assert (w' = w) as -> by congruence.
  assert (forall col, length (kept_records s col
            (select_data s rawdata counter (Z.min stop total))) <= length rawdata)%nat
    as Hbound.
  { intros col. etransitivity; [apply kept_records_shape|apply select_data_length]. }
  split.
  - intros i records. rewrite Hd. case_decide; [|done]. intros [= <-].
    split; [apply kept_records_shape|apply Hbound].
  - rewrite Hc. apply Forall_fmap, Forall_forall. intros i _. apply Hbound.
Qed.

(** X9: an input file without a data line (an empty file, or comment
    lines only) is no error.  With a columns file to read the worker
    completes, whatever the range, and every individual of the header has
    its identifier, a count of zero and an empty record list; there is no
    other entry. *)
Theorem comments_only_contribution s fs inputfile columfile c counter stop total
    rawdata header more :
  fs !! inputfile = Some rawdata -> fs !! columfile = Some (header :: more) ->
  Forall (fun line => regex_match line = false) rawdata ->
  let columndata := split TAB (rstrip_newline header) in
  let n := (length columndata - start_data)%nat in
  exists w,
    worker_contribution s fs inputfile columfile c counter stop total = Some w
    /\ filename_arr w
       = map (fun name => "chr" +:+ c +:+ "." +:+ name) (drop start_data columndata)
    /\ count_arr w = replicate n 0%nat
    /\ forall i, chrp_data w !! i = if decide (i < n)%nat then Some [] else None.
Proof.
  intros Hin Hcol Hcomments columndata n.
  destruct (worker_contribution_readable s fs inputfile columfile c counter stop total
              rawdata header more Hin Hcol) as (w & Hw & Hf & Hc & Hd).
  assert (select_data s rawdata counter (Z.min stop total) = []) as Hdata.
  { unfold select_data.
    assert (forall lines, Forall (fun line => regex_match line = false) lines ->
                          List.filter regex_match lines = []) as Hnone.
    { induction 1 as [|line lines Hline _ IH]; [done|]. cbn. by rewrite Hline. }
    rewrite Hnone; [done|].
    destruct s; unfold slice; by apply Forall_take, Forall_drop. }
  rewrite Hdata in Hc, Hd. exists w. split; [done|]. split; [|split].
  - rewrite Hf. apply filenames_of_header.
  - rewrite Hc. fold columndata. fold n.
    rewrite (const_fmap _ (seq 0 n) 0%nat) by done. by rewrite length_seq.
  - exact Hd.
Qed.

(** X10: moving the end of the range further down only appends: for every
    individual the records of the range [counter, stop] are the beginning
    of the records of [counter, stop'] when [stop <= stop']. *)
Theorem longer_range_appends s fs inputfile columfile c counter stop stop' total w w' :
  (1 <= counter)%Z -> (counter - 1 <= stop)%Z -> (stop <= stop')%Z -> (0 <= total)%Z ->
  worker_contribution s fs inputfile columfile c counter stop total = Some w ->
  worker_contribution s fs inputfile columfile c counter stop' total = Some w' ->
  filename_arr w = filename_arr w'
  /\ forall i, default [] (chrp_data w !! i) `prefix_of` default [] (chrp_data w' !! i).
Proof.
  intros Hcounter Hstop Hstop' Htotal Hw Hw'.
  destruct (worker_contribution_inv _ _ _ _ _ _ _ _ _ Hw)
    as (rawdata & header & more & Hin & Hcol).
  destruct (worker_contribution_readable s fs inputfile columfile c counter stop total
              rawdata header more Hin Hcol) as (w0 & Hw0 & Hf & _ & Hd).
  destruct (worker_contribution_readable s fs inputfile columfile c counter stop' total
              rawdata header more Hin Hcol) as (w1 & Hw1 & Hf' & _ & Hd').
  assert (w0 = w) as -> by congruence. assert (w1 = w') as -> by congruence.
  split; [by rewrite Hf, Hf'|].
  intros i. rewrite Hd, Hd'. case_decide; [|done]. cbn.
  rewrite <- (select_data_join s rawdata counter stop stop' total) by lia.
  unfold kept_records. rewrite omap_app. by apply prefix_app_r.
Qed.

(** X20: what is kept for an individual on a line depends on the line
    through its fields 1, 2, 3, 4 and 7 and the individual's own column
    only: two lines that agree there give the same record or are both
    passed over, whatever the other individuals' columns hold. *)
Theorem kept_record_own_column s col line line' :
  (forall k, k ∈ [1; 2; 3; 4; 7; col]%nat -> split TAB line !! k = split TAB line' !! k) ->
  parse_line s col line = parse_line s col line'
  /\ kept_record s col line = kept_record s col line'.
Proof.
  intros Hsame.
  assert (parse_line s col line = parse_line s col line') as Hparse.
  { unfold parse_line. cbv zeta.
    set (fields := split TAB line) in *. set (fields' := split TAB line') in *.
    assert (forall k, k ∈ [1; 2; 3; 4; 7; col]%nat -> index fields k = index fields' k)
      as Hindex by (intros k Hk; unfold index; by rewrite (Hsame k Hk)).
    assert (forall k, k ∈ [1; 2; 3; 4; 7; col]%nat ->
              (length fields <=? k)%nat = (length fields' <=? k)%nat) as Hlen.
    { intros k Hk. specialize (Hsame k Hk).
      destruct (Nat.leb_spec (length fields) k) as [Hle|Hgt],
               (Nat.leb_spec (length fields') k) as [Hle'|Hgt']; try done.
      - apply lookup_ge_None_2 in Hle. apply lookup_lt_is_Some_2 in Hgt' as [? Hgt'].
        congruence.
      - apply lookup_ge_None_2 in Hle'. apply lookup_lt_is_Some_2 in Hgt as [? Hgt].
        congruence. }
    rewrite (Hlen col), (Hindex col) by set_solver.
    change (length fields <? 8)%nat with (length fields <=? 7)%nat.
    change (length fields' <? 8)%nat with (length fields' <=? 7)%nat.
    rewrite (Hlen 7%nat) by set_solver.
    cbn [mapM]. by rewrite (Hindex 1%nat), (Hindex 2%nat), (Hindex 3%nat),
      (Hindex 4%nat), (Hindex 7%nat) by set_solver. }
  split; [done|]. unfold kept_record. by rewrite Hparse.
Qed.

End ContributionFacts.

(** ** One frequency, one allele *)

Lemma SFcompare_Lt_swap x y :
  SpecFloat.SFcompare x y = Some Lt -> SpecFloat.SFcompare y x = Some Gt.
Proof.
  destruct x as [s1|s1| |s1 m1 e1], y as [s2|s2| |s2 m2 e2]; unfold SpecFloat.SFcompare;
    try destruct s1; try destruct s2; try discriminate; try reflexivity;
    rewrite (Z.compare_antisym e1 e2);
    change (Pos.compare_cont Eq m1 m2) with (Pos.compare m1 m2);
    change (Pos.compare_cont Eq m2 m1) with (Pos.compare m2 m1);
    rewrite (Pos.compare_antisym m1 m2);
    destruct (e1 ?= e2)%Z, (m1 ?= m2)%positive; cbn; try discriminate; reflexivity.
Qed.

Lemma not_both_sides_of_half f :
  (0.5 <=? f)%float = true -> (f <? 0.5)%float = true -> False.
Proof.
  rewrite FloatAxioms.leb_spec, FloatAxioms.ltb_spec.
  unfold SpecFloat.SFleb, SpecFloat.SFltb.
  destruct (SpecFloat.SFcompare (Prim2SF f) (Prim2SF 0.5)) as [[]|] eqn:Hlt;
    try discriminate.
  rewrite (SFcompare_Lt_swap _ _ Hlt). discriminate.
Qed.

Lemma classify_true g f :
  classify g f = true ->
  ((0.5 <=? f)%float = true /\ first_allele g = "0")
  \/ ((f <? 0.5)%float = true /\ first_allele g = "1").
Proof.
  unfold classify, first_allele.
  destruct (split_cons "|" g) as (a & rest & ->).
  destruct (0.5 <=? f)%float, (f <? 0.5)%float; cbn [andb];
    destruct (String.eqb_spec a "0"), (String.eqb_spec a "1"); subst;
    intuition congruence.
Qed.

(** X11: only the first allele of a genotype has a part in the decision,
    and one frequency keeps one allele: two genotypes kept at the same
    frequency (two individuals kept on the same line) have the same first
    allele. *)
Theorem classify_one_allele g g' f :
  (first_allele g = first_allele g' -> classify g f = classify g' f)
  /\ (classify g f = true -> classify g' f = true -> first_allele g = first_allele g').
Proof.
  split.
  - unfold classify, first_allele.
    destruct (split_cons "|" g) as (a & rest & ->).
    destruct (split_cons "|" g') as (a' & rest' & ->). by intros ->.
  - intros [[Hge ->]|[Hlt ->]]%classify_true [[Hge' ->]|[Hlt' ->]]%classify_true;
      try done; by destruct (not_both_sides_of_half f).
Qed.

(** ** What a worker does to the communicator *)

(** X12: the sends of two different workers commute: the merger finds the
    same communicator whichever of them is done first. *)
Theorem send_contribution_commute r1 r2 dest w1 w2 comm :
  r1 <> r2 ->
  send_contribution r1 dest w1 (send_contribution r2 dest w2 comm)
  = send_contribution r2 dest w2 (send_contribution r1 dest w1 comm).
Proof.
  intros Hne. apply map_eq. intros [[source to] tag].
  unfold send_contribution. rewrite !lookup_send.
  repeat case_decide; simplify_eq; done.
Qed.

Section TransportFacts.
Context `{PyFloat}.

(** X13: a worker touches three queues only, those from its own rank to
    the last rank under the tags 12, 7 and 13, and takes nothing out of any
    queue: what waited there stays at the front.  When it returns [True]
    each of the three got exactly one message more, after those already
    there: the identifiers, the counts and the record mapping of its
    contribution.  When its files cannot be read it returns [False] with
    nothing sent. *)
Theorem worker_sends_three fs inputfile columfile c counter stop total rank size comm :
  let done := process_individuals_worker fs inputfile columfile c counter stop total
                rank size comm in
  (forall source dest tag,
      source <> rank \/ dest <> (size - 1)%nat \/ (tag <> 12 /\ tag <> 7 /\ tag <> 13)%nat ->
      done.2 !! (source, dest, tag) = comm !! (source, dest, tag))
  /\ (forall key, default [] (comm !! key) `prefix_of` default [] (done.2 !! key))
  /\ (done.1 = true ->
      exists w,
        worker_contribution proper fs inputfile columfile c counter stop total = Some w
        /\ done.2 !! (rank, (size - 1)%nat, 12%nat)
           = Some (default [] (comm !! (rank, (size - 1)%nat, 12%nat))
                   ++ [Names (filename_arr w)])
        /\ done.2 !! (rank, (size - 1)%nat, 7%nat)
           = Some (default [] (comm !! (rank, (size - 1)%nat, 7%nat))
                   ++ [Counts (count_arr w)])
        /\ done.2 !! (rank, (size - 1)%nat, 13%nat)
           = Some (default [] (comm !! (rank, (size - 1)%nat, 13%nat))
                   ++ [Records (chrp_data w)]))
  /\ (fs !! inputfile = None \/ (forall header more, fs !! columfile <> Some (header :: more)) ->
      done = (false, comm)).
Proof.
  intros done. unfold done, process_individuals_worker.
  destruct (worker_contribution proper fs inputfile columfile c counter stop total)
    as [w|] eqn:Hw; cbn [fst snd].
  - split; [|split; [|split]].
    + intros source dest tag Hother. unfold send_contribution.
      rewrite !lookup_send. repeat case_decide; simplify_eq; try done; lia.
    + intros [[source dest] tag]. unfold send_contribution.
      rewrite !lookup_send.
      repeat case_decide; simplify_eq; cbn [default]; try done; by apply prefix_app_r.
    + intros _. exists w. split; [done|]. unfold send_contribution.
      rewrite !lookup_send. repeat case_decide; simplify_eq; done.
    + intros Hfiles. exfalso.
      destruct (worker_contribution_inv _ _ _ _ _ _ _ _ _ Hw)
        as (rawdata & header & more & Hin & Hcol).
      destruct Hfiles as [Hnone | Hnone]; [congruence|by apply (Hnone header more)].
  - split; [done|]. split; [done|]. split; [intros [=]|done].
Qed.

Lemma run_workers_fail fs inputfile columfile c total size ranges : forall rank comm,
  Forall (fun range =>
            worker_contribution proper fs inputfile columfile c range.1 range.2 total
            = None) ranges ->
  run_workers fs inputfile columfile c total size rank ranges comm
  = (bool_decide (ranges = []), comm).
Proof.
  induction ranges as [|[counter stop] ranges IH]; intros rank comm Hfail; [done|].
  apply Forall_cons in Hfail as [Hhere Hrest]. cbn in Hhere.
  cbn [run_workers]. unfold process_individuals_worker. rewrite Hhere.
  cbn [fst snd andb]. by rewrite IH.
Qed.

(** X14: the workers of one run read the same two files.  When the input
    file cannot be read, or the columns file cannot be read or has no line,
    every worker returns [False] before its sends, whatever its range: the
    run leaves the communicator as it was, and the merger, with nothing
    waiting from the first worker, is left without a result. *)
Theorem failed_workers_starve_merger fs inputfile columfile c total ranges comm :
  ranges <> [] ->
  fs !! inputfile = None \/ (forall header more, fs !! columfile <> Some (header :: more)) ->
  silent comm (0%nat, length ranges, 12%nat) ->
  let size := S (length ranges) in
  let sent := run_workers fs inputfile columfile c total size 0 ranges comm in
  sent = (false, comm) /\ (process_individuals_merger (size - 1) size sent.2).1 = None.
Proof.
  intros Hranges Hfiles Hsilent size sent.
  assert (Forall (fun range =>
            worker_contribution proper fs inputfile columfile c range.1 range.2 total
            = None) ranges) as Hall.
  { apply Forall_forall. intros range _.
    destruct (worker_contribution proper fs inputfile columfile c range.1 range.2 total)
      as [w|] eqn:Hw; [|done]. exfalso.
    destruct (worker_contribution_inv _ _ _ _ _ _ _ _ _ Hw)
      as (rawdata & header & more & Hin & Hcol).
    destruct Hfiles as [Hnone | Hnone]; [congruence|by apply (Hnone header more)]. }
  assert (sent = (false, comm)) as Hsent.
  { unfold sent. rewrite run_workers_fail by done. by rewrite bool_decide_eq_false_2. }
  split; [done|]. rewrite Hsent. cbn [snd].
  unfold size, process_individuals_merger.
  replace (S (length ranges) - 1)%nat with (length ranges) by lia.
  apply (merger_loop_missing _ _ _ _ 0%nat 12%nat); [|by left|done].
  apply elem_of_seq. destruct ranges; [done|]. cbn. lia.
Qed.

End TransportFacts.

(** ** Where a worker's entries are in the merged lists *)

Lemma lookup_concat_uniform {A} (lists : list (list A)) n : forall k l i,
  Forall (fun l => length l = n) lists ->
  lists !! k = Some l -> (i < n)%nat ->
  concat lists !! (k * n + i)%nat = l !! i.
Proof.
  induction lists as [|l0 lists IH]; intros k l i Hlen Hk Hi; [done|].
  apply Forall_cons in Hlen as [Hl0 Hlen]. cbn [concat].
  destruct k as [|k].
  - injection Hk as <-. cbn. apply lookup_app_l. lia.
  - rewrite lookup_app_r by (rewrite Hl0; lia).
    replace (S k * n + i - length l0)%nat with (k * n + i)%nat by (rewrite Hl0; lia).
    by apply IH.
Qed.

Section MergedFacts.
Context `{PyFloat}.

Lemma workers_entries fs inputfile columfile c total rawdata header more ranges :
  fs !! inputfile = Some rawdata -> fs !! columfile = Some (header :: more) ->
  let columndata := split TAB (rstrip_newline header) in
  let n := (length columndata - start_data)%nat in
  exists ws,
    Forall2 (fun range w =>
               worker_contribution proper fs inputfile columfile c range.1 range.2 total
               = Some w) ranges ws
    /\ Forall2 (fun range w =>
         filename_arr w = map (filename_of c columndata) (seq 0 n)
         /\ count_arr w
            = map (fun i => length (kept_records proper (i + start_data)
                     (select_data proper rawdata range.1 (Z.min range.2 total)))) (seq 0 n)
         /\ forall i, (i < n)%nat ->
              chrp_data w !! i
              = Some (kept_records proper (i + start_data)
                        (select_data proper rawdata range.1 (Z.min range.2 total))))
         ranges ws.
Proof.
  intros Hin Hcol columndata n.
  induction ranges as [|[counter stop] ranges (ws & Hws & Hentries)].
  - exists []. split; constructor.
  - destruct (worker_contribution_readable proper fs inputfile columfile c counter stop total
                rawdata header more Hin Hcol) as (w & Hw & Hf & Hc & Hd).
    exists (w :: ws). split; [by constructor|]. constructor; [|done].
    split; [exact Hf|]. split; [exact Hc|].
    intros i Hi. rewrite Hd. by rewrite decide_True.
Qed.

(** X15: after a run of the workers on their ranges and of the merger, with
    [n] individuals in the header, the entry [k * n + i] of the merged
    identifiers and of the merged counts and the entry [i] of the [k]-th
    merged mapping all belong to the individual [i] as the worker of rank
    [k] saw it on its own range: its identifier, the number of its records
    there, and these records. *)
Theorem merged_entries fs inputfile columfile c total ranges rawdata header more m comm' :
  fs !! inputfile = Some rawdata -> fs !! columfile = Some (header :: more) ->
  let size := S (length ranges) in
  let columndata := split TAB (rstrip_newline header) in
  let n := (length columndata - start_data)%nat in
  process_individuals_merger (size - 1) size
    (run_workers fs inputfile columfile c total size 0 ranges ∅).2 = (Some m, comm') ->
  forall k range i,
    ranges !! k = Some range -> (i < n)%nat ->
    let records := kept_records proper (i + start_data)
                     (select_data proper rawdata range.1 (Z.min range.2 total)) in
    all_filename_arr m !! (k * n + i)%nat = Some (filename_of c columndata i)
    /\ all_count_arr m !! (k * n + i)%nat = Some (length records)
    /\ all_chrp_data m !! k ≫= (fun d => d !! i) = Some records.
Proof.
  intros Hin Hcol size columndata n Hmerge k range i Hk Hi records.
  destruct (workers_entries fs inputfile columfile c total rawdata header more ranges
              Hin Hcol) as (ws & Hws & Hentries).
  fold columndata n in Hentries.
  destruct (run_workers_waiting fs inputfile columfile c total size ranges 0 ∅ ws Hws)
    as (_ & Hwait & _); [done|].
  destruct (merger_loop_collects (size - 1) ws 0
              {| all_filename_arr := []; all_count_arr := []; all_chrp_data := [] |}
              _ Hwait) as (comm'' & Hloop & _).
  assert (length ws = length ranges) as Hlen by (symmetry; by eapply Forall2_length).
  unfold process_individuals_merger in Hmerge.
  replace (size - 1)%nat with (length ws) in Hmerge at 2 by (unfold size; lia).
  rewrite Hloop in Hmerge. injection Hmerge as <- _.
  cbn [all_filename_arr all_count_arr all_chrp_data app].
  destruct (Forall2_lookup_l _ _ _ _ _ Hentries Hk) as (w & Hw & Hf & Hc & Hd).
  split; [|split].
  - rewrite (lookup_concat_uniform _ n k (filename_arr w)); [| |by rewrite list_lookup_fmap, Hw|done].
    + rewrite Hf, list_lookup_fmap, lookup_seq_lt by done. done.
    + apply Forall_fmap, Forall_forall. intros w' Hw'.
      apply list_elem_of_lookup in Hw' as [k' Hk'].
      destruct (Forall2_lookup_r _ _ _ _ _ Hentries Hk') as (range' & _ & Hf' & _).
      cbn. by rewrite Hf', length_map, length_seq.
  - rewrite (lookup_concat_uniform _ n k (count_arr w)); [| |by rewrite list_lookup_fmap, Hw|done].
    + rewrite Hc, list_lookup_fmap, lookup_seq_lt by done. done.
    + apply Forall_fmap, Forall_forall. intros w' Hw'.
      apply list_elem_of_lookup in Hw' as [k' Hk'].
      destruct (Forall2_lookup_r _ _ _ _ _ Hentries Hk') as (range' & _ & _ & Hc' & _).
      cbn. by rewrite Hc', length_map, length_seq.
  - rewrite list_lookup_fmap, Hw. cbn. by apply Hd.
Qed.

End MergedFacts.

(** ** The main programs *)

Section MainFacts.
Context `{PyFloat} `{PyInt}.

(** X16: [individuals_mpi_proper.py] stops with status 1, nothing sent and
    nothing received, when it is not given five arguments and when
    [find_columns_file] finds no columns file: at every rank, the merge rank
    included, which never reads that file.  With a columns file found the
    merge rank does the merge whatever the other arguments are: not even
    the numbers need to be numbers. *)
Theorem main_proper_early_exit argv fs rank size comm :
  (length argv <> 6%nat -> main_proper argv fs rank size comm = (false, comm))
  /\ (forall input_file,
        argv !! 1%nat = Some input_file -> find_columns_file fs input_file = None ->
        main_proper argv fs rank size comm = (false, comm))
  /\ (forall input_file,
        length argv = 6%nat -> argv !! 1%nat = Some input_file ->
        is_Some (find_columns_file fs input_file) -> rank = (size - 1)%nat ->
        main_proper argv fs rank size comm
        = (bool_decide (is_Some (process_individuals_merger rank size comm).1),
           (process_individuals_merger rank size comm).2)).
Proof.
  split; [|split].
  - intros Hlen.
    destruct argv as [|a0 [|a1 [|a2 [|a3 [|a4 [|a5 [|a6 argv]]]]]]]; try done.
  - intros input_file Hinput Hnone.
    destruct argv as [|a0 [|a1 [|a2 [|a3 [|a4 [|a5 [|a6 argv]]]]]]]; try done.
    injection Hinput as ->. unfold main_proper. by rewrite Hnone.
  - intros input_file Hlen Hinput [columfile Hfound] ->.
    destruct argv as [|a0 [|a1 [|a2 [|a3 [|a4 [|a5 [|a6 argv]]]]]]]; try done.
    injection Hinput as ->. unfold main_proper. by rewrite Hfound, Nat.eqb_refl.
Qed.


(** X18: in [individuals_mpi_debug.py] the upper bound [total] is the
    number read from the text of [stop] itself, so it never cuts the range
    short, and the value 250000 kept for a text that is no number is never
    used: the same text then stops [processing] at [int(stop)].  With the
    numbers read and the files found, the lines worked on are those of the
    slice from [counter] to [stop]. *)
Theorem main_debug_total_is_stop a0 inputfile columfile c counter stop fs rank size comm :
  main_debug [a0; inputfile; columfile; c; counter; stop] fs rank size comm
  = match int_of_string counter, int_of_string stop with
    | Some zcounter, Some zstop =>
        Debug.processing fs inputfile columfile c zcounter zstop zstop rank size comm
    | _, _ => (false, comm)
    end
  /\ forall zcounter zstop rawdata header more,
       int_of_string counter = Some zcounter -> int_of_string stop = Some zstop ->
       fs !! inputfile = Some rawdata ->
       Debug.columnlines fs inputfile columfile = Some (header :: more) ->
       exists w,
         main_debug [a0; inputfile; columfile; c; counter; stop] fs rank size comm
         = (true, send_contribution rank (size - 1) w comm)
         /\ forall i, (i < length (filename_arr w))%nat ->
              chrp_data w !! i
              = Some (kept_records debug (i + start_data)
                        (select_data debug rawdata zcounter zstop)).
Proof.
  split.
  - unfold main_debug.
    destruct (int_of_string counter), (int_of_string stop); done.
  - intros zcounter zstop rawdata header more Hcounter Hstop Hin Hcol.
    assert (exists columfile', fs !! columfile' = Some (header :: more)
              /\ Debug.contribution_of fs inputfile columfile c zcounter zstop zstop
                 = worker_contribution debug fs inputfile columfile' c zcounter zstop zstop)
      as (columfile' & Hcol' & Hsame).
    { unfold Debug.contribution_of, worker_contribution.
      unfold Debug.columnlines in Hcol |- *.
      destruct (isabs columfile); cbn [negb] in Hcol |- *; [by exists columfile|].
      destruct (path_exists fs columfile); [by exists columfile|].
      by exists (path_join (dirname inputfile) columfile). }
    destruct (worker_contribution_readable debug fs inputfile columfile' c zcounter zstop
                zstop rawdata header more Hin Hcol') as (w & Hw & Hf & _ & Hd).
    exists w. split.
    + unfold main_debug, Debug.processing. rewrite Hcounter, Hstop.
      change (default 250000%Z (Some zstop)) with zstop.
      by rewrite Hsame, Hw.
    + intros i Hi. rewrite Hf, length_map, length_seq in Hi.
      rewrite Hd, decide_True by done. by rewrite Z.min_id.
Qed.

End MainFacts.

(** ** The further theorems at work *)

Lemma select_data_start_below_one_witness :
  select_data proper Sample.rawdata 0 10 = select_data proper Sample.rawdata 1 10
  /\ select_data debug Sample.rawdata 0 10
     = map rstrip_newline (List.filter regex_match
         (drop (length Sample.rawdata - Z.to_nat (1 - 0)) Sample.rawdata))
  /\ select_data debug Sample.rawdata 0 10 = [Sample.short_line].
Proof.
  destruct (select_data_start_below_one Sample.rawdata 0 10) as (Hproper & _ & Hdebug);
    [lia|].
  split; [exact Hproper|]. split; [|vm_compute; reflexivity].
  apply Hdebug; vm_compute; discriminate.
Defined.

Lemma select_data_negative_end_witness :
  select_data proper Sample.rawdata 1 (-2)
  = select_data proper Sample.rawdata 1 (Z.max 0 (Z.of_nat (length Sample.rawdata) + -2))
  /\ select_data proper Sample.rawdata 1 (-2) = [Sample.line1; Sample.line2].
Proof.
  split; [|vm_compute; reflexivity].
  apply (select_data_negative_end proper Sample.rawdata 1 (-2)). lia.
Defined.

Lemma filename_arr_of_header_witness :
  filename_arr Sample.whole
  = map (fun name => "chr" +:+ "1" +:+ "." +:+ name)
      (drop 9 (split TAB (rstrip_newline (Sample.header +:+ String NEWLINE "")))).
Proof.
  refine (@filename_arr_of_header Decimal.decimal_literals proper Sample.files
            "ALL.chr1.250000.vcf" "columns.txt" "1" 1 5 5 Sample.whole _ [] _ _);
    vm_compute; reflexivity.
Defined.

Lemma contribution_records_bounded_witness :
  Forall (fun count => (count <= length Sample.rawdata)%nat) (count_arr Sample.whole).
Proof.
  refine (proj2 (@contribution_records_bounded Decimal.decimal_literals proper Sample.files
                   "ALL.chr1.250000.vcf" "columns.txt" "1" 1 5 5 Sample.whole
                   Sample.rawdata _ _));
    vm_compute; reflexivity.
Defined.

Lemma comments_only_contribution_witness :
  exists w,
    @worker_contribution Decimal.decimal_literals proper
      (<["only_comments.vcf" := Sample.readlines ["##fileformat=VCFv4.1"; "#CHROM"]]>
         Sample.files)
      "only_comments.vcf" "columns.txt" "1" 1 5 5 = Some w
    /\ filename_arr w = ["chr1.HG00096"; "chr1.HG00097"]
    /\ count_arr w = [0; 0]%nat
    /\ forall i, chrp_data w !! i = if decide (i < 2)%nat then Some [] else None.
Proof.
  refine (@comments_only_contribution Decimal.decimal_literals proper
            (<["only_comments.vcf" := Sample.readlines ["##fileformat=VCFv4.1"; "#CHROM"]]>
               Sample.files)
            "only_comments.vcf" "columns.txt" "1" 1 5 5
            (Sample.readlines ["##fileformat=VCFv4.1"; "#CHROM"])
            (Sample.header +:+ String NEWLINE "") [] _ _ _).
  - vm_compute; reflexivity.
  - vm_compute; reflexivity.
  - repeat constructor.
Defined.

Lemma longer_range_appends_witness :
  filename_arr Sample.first_half = filename_arr Sample.whole
  /\ forall i, default [] (chrp_data Sample.first_half !! i)
               `prefix_of` default [] (chrp_data Sample.whole !! i).
Proof.
  refine (@longer_range_appends Decimal.decimal_literals proper Sample.files
            "ALL.chr1.250000.vcf" "columns.txt" "1" 1 2 5 5
            Sample.first_half Sample.whole _ _ _ _ _ _).
  - lia.
  - lia.
  - lia.
  - lia.
  - vm_compute; reflexivity.
  - vm_compute; reflexivity.
Defined.

Lemma send_contribution_commute_witness :
  send_contribution 0 2 Sample.first_half (send_contribution 1 2 Sample.second_half ∅)
  = send_contribution 1 2 Sample.second_half (send_contribution 0 2 Sample.first_half ∅).
Proof. apply send_contribution_commute. lia. Defined.

Lemma failed_workers_starve_merger_witness :
  @run_workers Decimal.decimal_literals Sample.files "missing.vcf" "columns.txt" "1"
    5 3 0 [(1, 2); (3, 5)]%Z ∅ = (false, ∅)
  /\ (process_individuals_merger (3 - 1) 3
        (@run_workers Decimal.decimal_literals Sample.files "missing.vcf" "columns.txt" "1"
           5 3 0 [(1, 2); (3, 5)]%Z ∅).2).1 = None.
Proof.
  refine (@failed_workers_starve_merger Decimal.decimal_literals Sample.files
            "missing.vcf" "columns.txt" "1" 5 [(1, 2); (3, 5)]%Z ∅ _ _ _).
  - discriminate.
  - left. vm_compute; reflexivity.
  - vm_compute; reflexivity.
Defined.

Lemma merged_entries_witness :
  exists m comm',
    @process_individuals_merger 2 3
      (@run_workers Decimal.decimal_literals Sample.files "ALL.chr1.250000.vcf"
         "columns.txt" "1" 5 3 0 [(1, 2); (3, 5)]%Z ∅).2 = (Some m, comm')
    /\ let columndata := split TAB (rstrip_newline (Sample.header +:+ String NEWLINE "")) in
       let n := (length columndata - start_data)%nat in
       all_filename_arr m !! (1 * n + 0)%nat = Some (filename_of "1" columndata 0).
Proof.
  destruct (@process_individuals_merger 2 3
              (@run_workers Decimal.decimal_literals Sample.files "ALL.chr1.250000.vcf"
                 "columns.txt" "1" 5 3 0 [(1, 2); (3, 5)]%Z ∅).2) as [[m|] comm'] eqn:Hmerge;
    [|exfalso; revert Hmerge; vm_compute; discriminate].
  exists m, comm'. split; [reflexivity|].
  refine (proj1 (@merged_entries Decimal.decimal_literals Sample.files "ALL.chr1.250000.vcf"
              "columns.txt" "1" 5 [(1, 2); (3, 5)]%Z Sample.rawdata
              (Sample.header +:+ String NEWLINE "") [] m comm' _ _ Hmerge
              1%nat (3, 5)%Z 0%nat eq_refl _)).
  - vm_compute; reflexivity.
  - vm_compute; reflexivity.
  - vm_compute. lia.
Defined.


Lemma kept_record_own_column_witness :
  @kept_record Decimal.decimal_literals proper 10 Sample.line1
  = @kept_record Decimal.decimal_literals proper 10
      (Sample.tabbed ["1"; "100"; "rs1"; "A"; "G"; "."; "PASS"; "AC=1;AF=0.25,0.9;AN=2"; "GT";
                      "1|1"; "1|0"]).
Proof.
  refine (proj2 (@kept_record_own_column Decimal.decimal_literals proper 10 Sample.line1
                   (Sample.tabbed ["1"; "100"; "rs1"; "A"; "G"; "."; "PASS";
                                   "AC=1;AF=0.25,0.9;AN=2"; "GT"; "1|1"; "1|0"]) _)).
  intros k Hk. repeat (apply elem_of_cons in Hk as [-> | Hk]; [vm_compute; reflexivity|]).
  destruct (proj1 (elem_of_nil k) Hk).
Defined.
